(** * sftp-sync: a shallow embedding of [sftp-sync.py]

    The script is a single class [SftpSync] driven by [main].  The model
    keeps the program's names and its control flow: every method becomes a
    computation in a small state-and-exception monad [M] over a [World]
    that holds the contents of the state file ([.<name>.pickle]) and the
    trace of externally visible actions (prints, SFTP connections, fetches,
    puts, zip writes, webhook posts).  The remote hosts, the webhook and the
    local disk are an environment [Env] of oracles that decide which calls
    succeed.  Python exceptions (including [sys.exit]) are the constructors
    of [PyExc]. *)

From Stdlib Require Import String Ascii List ZArith Bool Lia.
Import ListNotations.
Open Scope string_scope.

(* ------------------------------------------------------------------ *)
(** ** Python values used by the script *)

(** Python's truthiness of a [str]. *)
Definition truthy (s : string) : bool :=
  match s with EmptyString => false | _ => true end.

(** Truthiness of an optional [str] ([None] is falsy). *)
Definition truthy_opt (o : option string) : bool :=
  match o with Some s => truthy s | None => false end.

Definition nl : string := String (ascii_of_nat 10) EmptyString.

(** Decimal rendering of a natural number, as [str(n)] / ["{}".format(n)]. *)
Fixpoint str_of_nat_aux (fuel n : nat) (acc : string) : string :=
  match fuel with
  | O => acc
  | S f =>
      let acc' := String (ascii_of_nat (48 + n mod 10)) acc in
      if Nat.ltb n 10 then acc' else str_of_nat_aux f (n / 10) acc'
  end.

Definition str_of_nat (n : nat) : string := str_of_nat_aux (S n) n EmptyString.

Definition str_of_Z (z : Z) : string :=
  if (z <? 0)%Z then "-" ++ str_of_nat (Z.to_nat (- z))
  else str_of_nat (Z.to_nat z).

(** Text is held as its UTF-8 bytes.  [int(s)] on a [str] of ASCII
    characters: surrounding whitespace (space, [\t\n\v\f\r]) is
    stripped, an optional sign is accepted, then decimal digits, where a
    single [_] may separate two digits.  [None] stands for the
    [ValueError].  Text with non-ASCII characters (Unicode digits and
    spaces) is left to the environment, see [py_int] below. *)
Definition is_py_space (c : ascii) : bool :=
  let n := nat_of_ascii c in
  Nat.eqb n 32 || ((9 <=? n) && (n <=? 13))%nat.

Fixpoint lstrip (l : list ascii) : list ascii :=
  match l with
  | c :: r => if is_py_space c then lstrip r else l
  | [] => []
  end.

Definition py_strip (l : list ascii) : list ascii := rev (lstrip (rev (lstrip l))).

Definition is_digit (c : ascii) : bool :=
  let n := nat_of_ascii c in ((48 <=? n) && (n <=? 57))%nat.

Definition digit_val (c : ascii) : Z := Z.of_nat (nat_of_ascii c - 48).

(** The digits after the first one: a digit, or [_] followed by a digit. *)
Fixpoint digits_val (l : list ascii) (acc : Z) : option Z :=
  match l with
  | [] => Some acc
  | c :: r =>
      if is_digit c then digits_val r (acc * 10 + digit_val c)%Z
      else if Ascii.eqb c "_" then
        match r with
        | c' :: r' => if is_digit c' then digits_val r' (acc * 10 + digit_val c')%Z else None
        | [] => None
        end
      else None
  end.

Definition unsigned_digits (l : list ascii) : option Z :=
  match l with
  | c :: r => if is_digit c then digits_val r (digit_val c) else None
  | [] => None
  end.

Definition py_int_ascii (s : string) : option Z :=
  match py_strip (list_ascii_of_string s) with
  | [] => None
  | c :: r =>
      if Ascii.eqb c "-" then option_map Z.opp (unsigned_digits r)
      else if Ascii.eqb c "+" then unsigned_digits r
      else unsigned_digits (c :: r)
  end.

Definition is_ascii_str (s : string) : bool :=
  forallb (fun c => (nat_of_ascii c <? 128)%nat) (list_ascii_of_string s).

(** Association lists with Python dict update: assigning an existing key
    keeps its position and replaces its value, a new key goes last. *)
Fixpoint assoc {A} (k : string) (l : list (string * A)) : option A :=
  match l with
  | [] => None
  | (k', v) :: r => if String.eqb k k' then Some v else assoc k r
  end.

Fixpoint dict_set {A} (k : string) (v : A) (l : list (string * A)) : list (string * A) :=
  match l with
  | [] => [(k, v)]
  | (k', v') :: r => if String.eqb k k' then (k, v) :: r else (k', v') :: dict_set k v r
  end.

(** [os.path.join(a, b)] and [os.path.basename(p)] on POSIX paths. *)
Definition ends_with_slash (a : string) : bool :=
  match String.get (String.length a - 1) a with
  | Some c => Ascii.eqb c "/"
  | None => false
  end.

Definition os_path_join (a b : string) : string :=
  if String.prefix "/" b then b
  else if String.eqb a "" then b
  else if ends_with_slash a then a ++ b
  else a ++ "/" ++ b.

Fixpoint basename_aux (s : string) (cur : string) : string :=
  match s with
  | EmptyString => cur
  | String c r =>
      if Ascii.eqb c "/" then basename_aux r "" else basename_aux r (cur ++ String c "")
  end.

Definition os_path_basename (p : string) : string := basename_aux p "".

(** Python's [set] of [str] and the set difference [set(a) - set(b)].
    CPython's iteration order over a set of strings depends on the
    per-process hash seed; the model fixes one order. *)
Definition py_set (a : list string) : list string := nodup string_dec a.

Definition py_set_diff (a b : list string) : list string :=
  filter (fun x => if in_dec string_dec x b then false else true) (py_set a).

(* ------------------------------------------------------------------ *)
(** ** configparser *)

(** [ConfigParser.optionxform]: option names are lower-cased on storage
    and on lookup; section names are case-sensitive.  The [DEFAULT]
    section and its inheritance are not modelled. *)
Definition ascii_lower (c : ascii) : ascii :=
  let n := nat_of_ascii c in
  if ((65 <=? n) && (n <=? 90))%nat then ascii_of_nat (n + 32) else c.

Fixpoint optionxform (s : string) : string :=
  match s with
  | EmptyString => EmptyString
  | String c r => String (ascii_lower c) (optionxform r)
  end.

(** A section: option name (already passed through [optionxform]) to
    value, as [section[key]] returns it, i.e. after interpolation (a value
    whose interpolation raises is outside the model). *)
Definition SectionT := list (string * string).

(** A parsed configuration: section name to section. *)
Definition ConfigT := list (string * SectionT).

(** [key in section] and [section.get(key)]. *)
Definition sec_get (s : SectionT) (key : string) : option string := assoc (optionxform key) s.

Definition sec_has (s : SectionT) (key : string) : bool :=
  match sec_get s key with Some _ => true | None => false end.

(** [section[key] = value]. *)
Definition sec_set (s : SectionT) (key v : string) : SectionT := dict_set (optionxform key) v s.

(** [name in config]. *)
Definition has_section (c : ConfigT) (name : string) : bool :=
  match assoc name c with Some _ => true | None => false end.

(* ------------------------------------------------------------------ *)
(** ** pickle *)

(** The state file holds [pickle.dump(files)] for a list of [str].  Its
    bytes are modelled by the opcodes they encode (protocol 4 without
    framing, memo and batching opcodes): [PROTO 4], [EMPTY_LIST], then for
    a non-empty list [MARK], one unicode opcode per element and [APPENDS],
    and finally [STOP].  A write cut short leaves a prefix of this stream. *)
Inductive PickleOp :=
| PROTO (v : nat)
| EMPTY_LIST
| MARK
| UNICODE (s : string)
| APPENDS
| STOP.

Definition pickle_dumps (files : list string) : list PickleOp :=
  ([PROTO 4; EMPTY_LIST]
   ++ (match files with [] => [] | _ => MARK :: map UNICODE files ++ [APPENDS] end)
   ++ [STOP])%list.

(** [pickle.load]: [None] is the [UnpicklingError] / [EOFError] raised on a
    stream it cannot decode.  It stops at [STOP] and ignores what follows. *)
Fixpoint load_unicodes (ops : list PickleOp) (acc : list string) : option (list string) :=
  match ops with
  | UNICODE s :: r => load_unicodes r (acc ++ [s])%list
  | APPENDS :: STOP :: _ => Some acc
  | _ => None
  end.

Definition pickle_loads (ops : list PickleOp) : option (list string) :=
  match ops with
  | PROTO _ :: EMPTY_LIST :: STOP :: _ => Some []
  | PROTO _ :: EMPTY_LIST :: MARK :: r => load_unicodes r []
  | _ => None
  end.

(* ------------------------------------------------------------------ *)
(** ** Exceptions, actions, world and the monad *)

Inductive PyExc :=
| SystemExit (code : Z)
| KeyError (key : string)
| AttributeError (name : string)
| TypeError
| ValueError
| ConnError (host : string)       (** paramiko transport, authentication or session failure *)
| IOErrorChdir (dir : string)     (** [sftp.chdir] failed *)
| IOErrorGet (remote : string)    (** [source.get] failed *)
| IOErrorPut (remote : string)    (** [dest.put] failed *)
| PostError (url : string)        (** [requests.post] raised *)
| OSErrorZip (zip_path : string)  (** writing the zip archive failed *)
| OSErrorWrite                    (** writing the state file failed *)
| UnpicklingError.

(** Externally visible actions, in the order they happen.  [EvConnect] is
    recorded when the connection is attempted; [EvGet], [EvPut], [EvPost]
    and [EvZipWrite] when the call has completed.  [EvPost] carries the
    webhook URL and the [text] of the JSON body [{"text": message}]. *)
Inductive Event :=
| EvPrint (msg : string)
| EvConnect (host : string) (port : Z)
| EvChdir (host dir : string)
| EvGet (remote local : string)
| EvZipWrite (zip_path : string) (entries : list string)
| EvPut (local remote : string)
| EvPost (url text : string).

Record World := mkWorld {
  w_state : option (list PickleOp);   (** contents of the state file, [None] if absent *)
  w_trace : list Event
}.

Inductive Res (A : Type) := Ok (a : A) | Exc (e : PyExc).
Arguments Ok {A} a.
Arguments Exc {A} e.

Definition M (A : Type) := World -> Res A * World.

Definition ret {A} (a : A) : M A := fun w => (Ok a, w).

Definition raise {A} (e : PyExc) : M A := fun w => (Exc e, w).

Definition bind {A B} (m : M A) (k : A -> M B) : M B :=
  fun w => match m w with
           | (Ok a, w') => k a w'
           | (Exc e, w') => (Exc e, w')
           end.

Notation "x <- m ;; k" := (bind m (fun x => k))
  (at level 61, m at next level, right associativity).
Notation "m ;; k" := (bind m (fun _ => k)) (at level 61, right associativity).

Definition emit (ev : Event) : M unit :=
  fun w => (Ok tt, mkWorld (w_state w) (w_trace w ++ [ev])%list).

(** [print(msg); sys.exit(1)] *)
Definition exit_with {A} (msg : string) : M A :=
  emit (EvPrint msg) ;; raise (SystemExit 1).

(* ------------------------------------------------------------------ *)
(** ** The environment *)

(** What the outside world answers: the source listing
    ([listdir_attr()] as [(filename, st_size)]), which SFTP calls,
    webhook posts and zip writes succeed, how many pickle opcodes the disk
    accepts before a write of the state file fails, today's ISO date, and
    what [int()] makes of text that is not short ASCII (see [py_int]). *)
Record Env := mkEnv {
  env_listing : list (string * Z);
  env_connect_ok : string -> Z -> string -> string -> bool;
      (** host, port, user, password: transport, authentication and the
          SFTP session all succeed *)
  env_get_ok : string -> bool;            (** remote file name *)
  env_put_ok : string -> bool;            (** remote file name *)
  env_post_ok : string -> bool;           (** message text *)
  env_write_limit : option nat;
  env_today : string;
  env_chdir_ok : string -> string -> bool;      (** host, directory *)
  env_zip_ok : string -> list string -> bool;   (** zip path, files written into it *)
  env_int : string -> option Z
}.

(** An open [paramiko.SFTPClient]. *)
Record Conn := mkConn { conn_host : string; conn_port : Z }.

(** The instance attributes set by [SftpSync.__init__]. *)
Record SftpSync := mkSftpSync {
  config : ConfigT;
  state_file : string;
  zip : bool;
  source : Conn;
  dest : Conn;
  dry_run : bool;
  file_details : list (string * Z)     (** filename -> st_size *)
}.

Definition with_file_details (self : SftpSync) (d : list (string * Z)) : SftpSync :=
  mkSftpSync (config self) (state_file self) (zip self) (source self) (dest self)
    (dry_run self) d.

(* ------------------------------------------------------------------ *)
(** ** The class namespace of [SftpSync]

    Executing a class body binds each name in turn, so a later [def] of a
    name replaces an earlier binding.  Attribute lookup on an instance goes
    to this namespace for the names looked up dynamically below
    ([archive], [archive_file]); the instance dictionary filled by
    [__init__] (config, state_file, zip, source, dest, dry_run,
    file_details) holds neither of them. *)
Inductive MethodName :=
| M_init | M_validate_sftp_config | M_validate_port | M_get_sftp_connection
| M_load_state | M_store_state | M_transfer | M_archive | M_read_source_files
| M_download_file | M_transfer_zip | M_transfer_file | M_notify.

Inductive Member :=
| MData (v : Z)            (** a plain class attribute *)
| MProperty                (** the [@property def archive(self)] *)
| MFunction (f : MethodName).

(** The class body of [SftpSync], in source order. *)
Definition SftpSync_body : list (string * Member) :=
  [("default_port", MData 22);
   ("__init__", MFunction M_init);
   ("_validate_sftp_config", MFunction M_validate_sftp_config);
   ("_validate_port", MFunction M_validate_port);
   ("get_sftp_connection", MFunction M_get_sftp_connection);
   ("load_state", MFunction M_load_state);
   ("store_state", MFunction M_store_state);
   ("archive", MProperty);
   ("transfer", MFunction M_transfer);
   ("archive", MFunction M_archive);
   ("read_source_files", MFunction M_read_source_files);
   ("download_file", MFunction M_download_file);
   ("transfer_zip", MFunction M_transfer_zip);
   ("transfer_file", MFunction M_transfer_file);
   ("notify", MFunction M_notify)].

Fixpoint exec_class_body (body : list (string * Member)) (ns : list (string * Member))
  : list (string * Member) :=
  match body with
  | [] => ns
  | (n, m) :: r => exec_class_body r (dict_set n m ns)
  end.

Definition SftpSync_ns : list (string * Member) := exec_class_body SftpSync_body [].

Definition default_port : Z := 22.

Section Program.

Variable env : Env.

(** [int(s)]: ASCII text of at most 4300 characters is parsed by
    [py_int_ascii]; for other text (non-ASCII digits or whitespace, or more
    digits than the limit CPython 3.11 sets by default) the answer is the
    environment's. *)
Definition py_int (s : string) : option Z :=
  if is_ascii_str s && (String.length s <=? 4300)%nat then py_int_ascii s else env_int env s.

(* ------------------------------------------------------------------ *)
(** ** [get_config] *)

Definition REQUIRED_CONFIG_SECTIONS : list string := ["source"; "dest"; "main"].

(** [config[name]]: [KeyError] for a missing section. *)
Definition config_section (c : ConfigT) (name : string) : M SectionT :=
  match assoc name c with Some s => ret s | None => raise (KeyError name) end.

(** [section[key]]: [KeyError] for a missing option. *)
Definition sec_item (s : SectionT) (key : string) : M string :=
  match sec_get s key with Some v => ret v | None => raise (KeyError key) end.

Fixpoint check_sections (conf_file : string) (secs : list string) (c : ConfigT) : M unit :=
  match secs with
  | [] => ret tt
  | section :: rest =>
      if has_section c section then check_sections conf_file rest c
      else exit_with ("ERROR: `" ++ section ++ "` must be defined in config file ("
                      ++ conf_file ++ ")")
  end.

(** [config.read(conf_file)] is the parse that produced [c]. *)
Definition get_config (conf_file : string) (c : ConfigT) : M ConfigT :=
  check_sections conf_file REQUIRED_CONFIG_SECTIONS c ;;
  main_sec <- config_section c "main" ;;
  (if negb (sec_has main_sec "name")
   then exit_with "ERROR: Must define `name` in [main]" else ret tt) ;;
  main_sec <- config_section c "main" ;;
  (if negb (sec_has main_sec "archive_dir")
   then exit_with "ERROR: Must define `archive_dir` in [main]" else ret tt) ;;
  ret c.

(* ------------------------------------------------------------------ *)
(** ** Connections *)

Fixpoint check_keys (keys : list string) (s : SectionT) : M unit :=
  match keys with
  | [] => ret tt
  | key :: rest =>
      if sec_has s key then check_keys rest s
      else exit_with ("ERROR: Missing key `" ++ key ++ "`")
  end.

(** [_validate_port]: [port] is set to [default_port] and never reassigned;
    a present [PORT] is only checked with [int(...)]. *)
Definition _validate_port (s : SectionT) : M Z :=
  let port := default_port in
  match sec_get s "PORT" with
  | Some p =>
      match py_int p with
      | Some _ => ret port
      | None => exit_with "ERROR: PORT must be a number"
      end
  | None => ret port
  end.

(** [_validate_sftp_config]: returns the section after
    [config['PORT'] = str(self._validate_port(config))]; in Python the
    [SectionProxy] is updated in place. *)
Definition _validate_sftp_config (s : SectionT) : M SectionT :=
  check_keys ["HOST"; "USER"; "PASS"] s ;;
  port <- _validate_port s ;;
  ret (sec_set s "PORT" (str_of_Z port)).

Definition py_int_M (s : string) : M Z :=
  match py_int s with Some z => ret z | None => raise ValueError end.

(** [get_sftp_connection]: [paramiko.Transport((HOST, int(PORT)))],
    [transport.connect(username=USER, password=PASS)] and
    [SFTPClient.from_transport], then [chdir(DIR)] when [DIR] is truthy.
    Python updates the section argument in place (through
    [_validate_sftp_config]) and returns the client; the model returns the
    updated section next to the client. *)
Definition get_sftp_connection (s : SectionT) : M (SectionT * Conn) :=
  s <- _validate_sftp_config s ;;
  host <- sec_item s "HOST" ;;
  port_s <- sec_item s "PORT" ;;
  port <- py_int_M port_s ;;
  emit (EvConnect host port) ;;
  user <- sec_item s "USER" ;;
  pass <- sec_item s "PASS" ;;
  (if env_connect_ok env host port user pass then ret tt else raise (ConnError host)) ;;
  (if truthy_opt (sec_get s "DIR")
   then d <- sec_item s "DIR" ;;
        (if env_chdir_ok env host d then emit (EvChdir host d) else raise (IOErrorChdir d))
   else ret tt) ;;
  ret (s, mkConn host port).

(** [SftpSync.__init__(config, dry_run)].  [self.config] is the parser
    [config]; the in-place updates of its [source] and [dest] sections are
    written back into it. *)
Definition SftpSync_init (c : ConfigT) (dry : bool) : M SftpSync :=
  main_sec <- config_section c "main" ;;
  name <- sec_item main_sec "name" ;;
  let sf := "." ++ name ++ ".pickle" in
  let z := truthy_opt (sec_get main_sec "zip") in
  src_sec <- config_section c "source" ;;
  r <- get_sftp_connection src_sec ;;
  let '(src_sec, src) := r in
  let c := dict_set "source" src_sec c in
  dst_sec <- config_section c "dest" ;;
  r <- get_sftp_connection dst_sec ;;
  let '(dst_sec, dst) := r in
  let c := dict_set "dest" dst_sec c in
  ret (mkSftpSync c sf z src dst dry []).

(* ------------------------------------------------------------------ *)
(** ** State store *)

(** What [pickle.load] makes of the state file; an absent file is the
    [FileNotFoundError] branch of [load_state], i.e. the empty list. *)
Definition load_file (w : World) : option (list string) :=
  match w_state w with
  | None => Some []
  | Some ops => pickle_loads ops
  end.

Definition load_state : M (list string) :=
  fun w => match load_file w with
           | Some l => (Ok l, w)
           | None => (Exc UnpicklingError, w)
           end.

(** [store_state]: [open(self.state_file, 'wb')] truncates the file in
    place, then [pickle.dump] writes the stream; when the disk accepts only
    [k] opcodes the write raises and the file keeps the first [k]. *)
Definition store_state (files : list string) : M unit :=
  fun w =>
    let data := pickle_dumps files in
    match env_write_limit env with
    | Some k =>
        if Nat.ltb k (length data)
        then (Exc OSErrorWrite, mkWorld (Some (firstn k data)) (w_trace w))
        else (Ok tt, mkWorld (Some data) (w_trace w))
    | None => (Ok tt, mkWorld (Some data) (w_trace w))
    end.

(* ------------------------------------------------------------------ *)
(** ** Source listing, fetch, put, notify *)

(** The loop of [read_source_files]: entries with a falsy [st_size] are
    skipped, the others are stored in [self.file_details]. *)
Fixpoint record_details (files : list (string * Z)) (d : list (string * Z)) : list (string * Z) :=
  match files with
  | [] => d
  | (filename, st_size) :: rest =>
      record_details rest (if (st_size =? 0)%Z then d else dict_set filename st_size d)
  end.

(** [read_source_files(self.source)]: the updated instance and
    [self.file_details.keys()]. *)
Definition read_source_files (self : SftpSync) : SftpSync * list string :=
  let d := record_details (env_listing env) (file_details self) in
  (with_file_details self d, map fst d).

(** The diff computed by [transfer]: [set(source_files) - set(transferred)]. *)
Definition transfer_diff (source_files transferred : list string) : list string :=
  py_set_diff source_files transferred.

(** [download_file]: [self.source.get(filename, localpath)] with
    [localpath = os.path.join(self.config['main']['archive_dir'], filename)]. *)
Definition download_file (self : SftpSync) (filename : string) : M string :=
  main_sec <- config_section (config self) "main" ;;
  adir <- sec_item main_sec "archive_dir" ;;
  let localpath := os_path_join adir filename in
  (if env_get_ok env filename then emit (EvGet filename localpath)
   else raise (IOErrorGet filename)) ;;
  ret localpath.

(** [self.dest.put(local, remote, confirm=True)]. *)
Definition dest_put (local remote : string) : M unit :=
  if env_put_ok env remote then emit (EvPut local remote) else raise (IOErrorPut remote).

(** [requests.post(url, data=json.dumps({'text': message}))]; an HTTP error
    status does not raise, a transport failure does. *)
Definition post (url message : string) : M unit :=
  if env_post_ok env message then emit (EvPost url message) else raise (PostError url).

Definition st_size_of (self : SftpSync) (filename : string) : M Z :=
  match assoc filename (file_details self) with
  | Some sz => ret sz
  | None => raise (KeyError filename)
  end.

(** [notify(filename, message=None)]. *)
Definition notify (self : SftpSync) (filename : string) (message : option string) : M unit :=
  main_sec <- config_section (config self) "main" ;;
  if truthy_opt (sec_get main_sec "slack") then
    msg <- (if truthy_opt message then ret (match message with Some m => m | None => "" end)
            else sz <- st_size_of self filename ;;
                 ret ("Transferred " ++ filename ++ " (" ++ str_of_Z sz ++ " bytes)")) ;;
    url <- sec_item main_sec "slack" ;;
    post url msg
  else ret tt.

(** The loop of [transfer_zip] that lists the members in the message. *)
Fixpoint zip_members_msg (self : SftpSync) (filenames : list string) (msg : string) : M string :=
  match filenames with
  | [] => ret msg
  | filename :: rest =>
      sz <- st_size_of self filename ;;
      zip_members_msg self rest
        (msg ++ nl ++ "    - " ++ filename ++ " (" ++ str_of_Z sz ++ " bytes)")
  end.

(** [transfer_zip(local_files, filenames)]: the archive entries are the
    base names of [local_files]; the message lists [filenames].  Opening
    the archive or writing a file into it can fail. *)
Definition transfer_zip (self : SftpSync) (local_files filenames : list string) : M unit :=
  let isodate := env_today env in
  main_sec <- config_section (config self) "main" ;;
  name <- sec_item main_sec "name" ;;
  let zip_filename := name ++ "-" ++ isodate ++ ".zip" in
  adir <- sec_item main_sec "archive_dir" ;;
  let zip_path := os_path_join adir zip_filename in
  (if env_zip_ok env zip_path local_files
   then emit (EvZipWrite zip_path (map os_path_basename local_files))
   else raise (OSErrorZip zip_path)) ;;
  dest_put zip_path zip_filename ;;
  msg <- zip_members_msg self filenames ("Transferred " ++ zip_filename ++ nl ++ "```Contains:") ;;
  let msg := msg ++ "```" in
  notify self zip_filename (Some msg).

(** [transfer_file(filename)]. *)
Definition transfer_file (self : SftpSync) (filename : string) : M unit :=
  localpath <- download_file self filename ;;
  dest_put localpath filename ;;
  notify self filename None.

(** The method [archive(self, filename)]: [self.config['archive_dir']] is a
    section lookup on the [ConfigParser] ([KeyError] when no such section),
    and [os.path.join] of a [SectionProxy] raises [TypeError]; the rename
    on the source is never reached. *)
Definition archive (self : SftpSync) (filename : string) : M unit :=
  _ <- config_section (config self) "archive_dir" ;;
  raise TypeError.

(* ------------------------------------------------------------------ *)
(** ** Dynamic attribute lookup on [self] *)

(** [getattr(self, name)] for a name that only the class namespace binds. *)
Definition self_getattr (self : SftpSync) (name : string) : M Member :=
  match assoc name SftpSync_ns with
  | Some m => ret m
  | None => raise (AttributeError name)
  end.

(** [if self.<name>:]: a property runs its getter (the [archive] getter
    calls [self.config.get('archive_dir')], and [ConfigParser.get] needs a
    section and an option: [TypeError]); a bound method is truthy. *)
Definition self_attr_truthy (self : SftpSync) (name : string) : M bool :=
  m <- self_getattr self name ;;
  match m with
  | MData v => ret (negb (v =? 0)%Z)
  | MProperty => raise TypeError
  | MFunction _ => ret true
  end.

(** [self.<name>(filename)] as a statement.  Of the methods, [archive],
    [download_file], [transfer_file] and [notify] accept one [str]
    argument; calling anything else that way raises [TypeError]. *)
Definition self_call1 (self : SftpSync) (name : string) (filename : string) : M unit :=
  m <- self_getattr self name ;;
  match m with
  | MFunction M_archive => archive self filename
  | MFunction M_download_file => _ <- download_file self filename ;; ret tt
  | MFunction M_transfer_file => transfer_file self filename
  | MFunction M_notify => notify self filename None
  | _ => raise TypeError
  end.

(** [for filename in diff: self.archive_file(filename)]. *)
Fixpoint archive_each (self : SftpSync) (filenames : list string) : M unit :=
  match filenames with
  | [] => ret tt
  | filename :: rest => self_call1 self "archive_file" filename ;; archive_each self rest
  end.

(* ------------------------------------------------------------------ *)
(** ** [transfer] *)

(** The [for filename in diff:] loop of [transfer], threading
    [local_files] and [transferred]. *)
Fixpoint transfer_loop (self : SftpSync) (fs : list string)
    (local_files transferred : list string) : M (list string * list string) :=
  match fs with
  | [] => ret (local_files, transferred)
  | filename :: rest =>
      if dry_run self then
        emit (EvPrint ("Would transfer " ++ filename)) ;;
        transfer_loop self rest local_files transferred
      else if zip self then
        lp <- download_file self filename ;;
        transfer_loop self rest (local_files ++ [lp])%list transferred
      else
        transfer_file self filename ;;
        let transferred := (transferred ++ [filename])%list in
        a <- self_attr_truthy self "archive" ;;
        (if a then self_call1 self "archive_file" filename else ret tt) ;;
        transfer_loop self rest local_files transferred
  end.

(** The [if diff and self.zip:] block of [transfer]. *)
Definition transfer_zip_block (self : SftpSync) (diff local_files transferred : list string)
  : M (list string) :=
  if match diff with [] => false | _ => true end && zip self then
    transfer_zip self local_files diff ;;
    let transferred := (transferred ++ diff)%list in
    a <- self_attr_truthy self "archive" ;;
    (if a then archive_each self diff else ret tt) ;;
    ret transferred
  else ret transferred.

Definition transfer (self : SftpSync) : M unit :=
  transferred <- load_state ;;
  let '(self, source_files) := read_source_files self in
  let diff := transfer_diff source_files transferred in
  emit (EvPrint ("Found " ++ str_of_nat (length diff) ++ " files to transfer.")) ;;
  r <- transfer_loop self diff [] transferred ;;
  let '(local_files, transferred) := r in
  transferred <- transfer_zip_block self diff local_files transferred ;;
  store_state transferred.

(** [main()] after [parse_args()]: [c] is what [config.read(conf_file)]
    parsed. *)
Definition main (conf_file : string) (c : ConfigT) (dry : bool) : M unit :=
  (if dry then emit (EvPrint ("--dry-run specified.  Nothing will be transferred" ++ nl))
   else ret tt) ;;
  c <- get_config conf_file c ;;
  sftp_sync <- SftpSync_init c dry ;;
  transfer sftp_sync.

End Program.

(* ================================================================== *)
(** * Specification predicates *)

(** A computation is framed when it leaves the state file alone and only
    appends to the trace. *)
Definition framed {A} (m : M A) : Prop :=
  forall w, w_state (snd (m w)) = w_state w
            /\ exists d, w_trace (snd (m w)) = (w_trace w ++ d)%list.

(** The outcomes of [store_state]. *)
Definition stored (l : list string) (r : Res unit) (w' : World) : Prop :=
  (r = Ok tt /\ w_state w' = Some (pickle_dumps l))
  \/ (r = Exc OSErrorWrite /\ exists k, k < length (pickle_dumps l)
                                  /\ w_state w' = Some (firstn k (pickle_dumps l))).

(** [n] is in the list [load()] reads from the state file. *)
Definition persisted (n : string) (w : World) : Prop :=
  exists l, load_file w = Some l /\ In n l.

(** [n] reached the destination in the trace: put under its own name, or
    as an entry of a zip archive that was written and then put. *)
Definition delivered (n : string) (tr : list Event) : Prop :=
  (exists lp, In (EvPut lp n) tr)
  \/ (exists zp zn entries, In (EvZipWrite zp entries) tr /\ In (EvPut zp zn) tr
                           /\ In n entries).

(** The [chdir] a connection makes after connecting: only for a truthy
    [DIR] option. *)
Definition chdir_events (host : string) (s : SectionT) : list Event :=
  match sec_get s "DIR" with
  | Some d => if truthy d then [EvChdir host d] else []
  | None => []
  end.

(** Changing into [DIR] succeeds, or is not asked for. *)
Definition chdir_succeeds (env : Env) (host : string) (s : SectionT) : bool :=
  match sec_get s "DIR" with
  | Some d => if truthy d then env_chdir_ok env host d else true
  | None => true
  end.

(** ** Concrete configurations and environments *)

Definition sec_src : SectionT := [("host", "src.example"); ("user", "u"); ("pass", "p")].
Definition sec_dst : SectionT := [("host", "dst.example"); ("user", "u"); ("pass", "p")].

(** [[main]] with [name] and [archive_dir]; [zip] is set when [z]. *)
Definition main_sec_ex (z : bool) (slack : option string) : SectionT :=
  ([("name", "myrun"); ("archive_dir", "/srv/arch")]
   ++ (if z then [("zip", "1")] else [])
   ++ (match slack with Some u => [("slack", u)] | None => [] end))%list.

Definition cfg_ex (z : bool) (slack : option string) : ConfigT :=
  [("source", sec_src); ("dest", sec_dst); ("main", main_sec_ex z slack)].

Definition hook : string := "https://hooks.example/T0".

(** A source listing [a.csv] (10 bytes), [b.csv] (20 bytes), [c.csv]
    (30 bytes) and an empty [lock.tmp]. *)
Definition listing_abc : list (string * Z) :=
  [("a.csv", 10%Z); ("b.csv", 20%Z); ("c.csv", 30%Z); ("lock.tmp", 0%Z)].


(** Puts fail for the names in [bad_put], posts fail when [post_fails];
    the disk accepts [limit] opcodes; every other call succeeds. *)
Definition env_ex (listing : list (string * Z)) (bad_put : list string) (post_fails : bool)
    (limit : option nat) : Env :=
  mkEnv listing
    (fun _ _ _ _ => true)
    (fun _ => true)
    (fun f => if in_dec string_dec f bad_put then false else true)
    (fun _ => negb post_fails)
    limit
    "2024-01-01"
    (fun _ _ => true)
    (fun _ _ => true)
    (fun _ => None).

Definition conn_src : Conn := mkConn "src.example" 22.
Definition conn_dst : Conn := mkConn "dst.example" 22.

(** [cfg_ex z slack] after [__init__] has set [PORT] in both
    connection sections. *)
Definition cfg_init (z : bool) (slack : option string) : ConfigT :=
  [("source", sec_src ++ [("port", "22")]); ("dest", sec_dst ++ [("port", "22")]);
   ("main", main_sec_ex z slack)]%list.

(** The instance [__init__] builds for [cfg_ex z slack]. *)
Definition sync_ex (z dry : bool) (slack : option string) : SftpSync :=
  mkSftpSync (cfg_init z slack) ".myrun.pickle" z conn_src conn_dst dry [].

Definition world0 : World := mkWorld None [].

(** A world whose state records [a.csv], which an earlier run put. *)
Definition world_a : World :=
  mkWorld (Some (pickle_dumps ["a.csv"])) [EvPut "/srv/arch/a.csv" "a.csv"].

(* ================================================================== *)
(** * Properties *)

Lemma framed_ret {A} (a : A) : framed (ret a).
Proof. intro w. split; [reflexivity | exists []; now rewrite app_nil_r]. Qed.

Lemma framed_raise {A} (e : PyExc) : framed (A := A) (raise e).
Proof. intro w. split; [reflexivity | exists []; now rewrite app_nil_r]. Qed.

Lemma framed_emit (ev : Event) : framed (emit ev).
Proof. intro w. split; [reflexivity | now exists [ev]]. Qed.

Lemma framed_bind {A B} (m : M A) (k : A -> M B) :
  framed m -> (forall a, framed (k a)) -> framed (bind m k).
Proof.
  intros Hm Hk w. unfold bind.
  destruct (Hm w) as [Hs [d Hd]].
  destruct (m w) as [[a|e] w1] eqn:E; simpl in *.
  - destruct (Hk a w1) as [Hs' [d' Hd']]. split.
    + congruence.
    + exists (d ++ d')%list. rewrite Hd', Hd. now rewrite app_assoc.
  - split; [assumption | now exists d].
Qed.

Create HintDb framing.
#[export] Hint Resolve framed_ret framed_raise framed_emit : framing.

(** Unfolds a computation built from [bind], [ret], [raise], [emit] and
    branches down to framed pieces. *)
Ltac framing :=
  repeat match goal with
  | |- framed (bind _ _) => apply framed_bind; [ | intro ]
  | |- framed (if ?b then _ else _) => destruct b
  | |- framed (match ?x with _ => _ end) => destruct x
  | |- framed _ => solve [eauto with framing]
  end.

Section Framing.

Variable env : Env.

Lemma framed_exit_with {A} (msg : string) : framed (A := A) (exit_with msg).
Proof. unfold exit_with. framing. Qed.
#[local] Hint Resolve framed_exit_with : framing.

Lemma framed_config_section c n : framed (config_section c n).
Proof. unfold config_section. framing. Qed.
#[local] Hint Resolve framed_config_section : framing.

Lemma framed_sec_item s k : framed (sec_item s k).
Proof. unfold sec_item. framing. Qed.
#[local] Hint Resolve framed_sec_item : framing.

Lemma framed_load_state : framed load_state.
Proof.
  intro w. unfold load_state. destruct (load_file w); simpl;
    (split; [reflexivity | exists []; now rewrite app_nil_r]).
Qed.
#[local] Hint Resolve framed_load_state : framing.

Lemma framed_download_file s f : framed (download_file env s f).
Proof. unfold download_file. framing. Qed.
#[local] Hint Resolve framed_download_file : framing.

Lemma framed_dest_put l r : framed (dest_put env l r).
Proof. unfold dest_put. framing. Qed.
#[local] Hint Resolve framed_dest_put : framing.

Lemma framed_post u m : framed (post env u m).
Proof. unfold post. framing. Qed.
#[local] Hint Resolve framed_post : framing.

Lemma framed_st_size_of s f : framed (st_size_of s f).
Proof. unfold st_size_of. framing. Qed.
#[local] Hint Resolve framed_st_size_of : framing.

Lemma framed_notify s f m : framed (notify env s f m).
Proof. unfold notify. framing. Qed.
#[local] Hint Resolve framed_notify : framing.

Lemma framed_zip_members_msg s fs msg : framed (zip_members_msg s fs msg).
Proof.
  revert msg. induction fs as [|f fs IH]; intro msg; simpl; framing.
Qed.
#[local] Hint Resolve framed_zip_members_msg : framing.

Lemma framed_transfer_zip s lf fs : framed (transfer_zip env s lf fs).
Proof. unfold transfer_zip. framing. Qed.
#[local] Hint Resolve framed_transfer_zip : framing.

Lemma framed_transfer_file s f : framed (transfer_file env s f).
Proof. unfold transfer_file. framing. Qed.
#[local] Hint Resolve framed_transfer_file : framing.

Lemma framed_archive s f : framed (archive s f).
Proof. unfold archive. framing. Qed.
#[local] Hint Resolve framed_archive : framing.

Lemma framed_self_getattr s n : framed (self_getattr s n).
Proof. unfold self_getattr. framing. Qed.
#[local] Hint Resolve framed_self_getattr : framing.

Lemma framed_self_attr_truthy s n : framed (self_attr_truthy s n).
Proof. unfold self_attr_truthy. framing. Qed.
#[local] Hint Resolve framed_self_attr_truthy : framing.

Lemma framed_self_call1 s n f : framed (self_call1 env s n f).
Proof. unfold self_call1. framing. Qed.
#[local] Hint Resolve framed_self_call1 : framing.

Lemma framed_archive_each s fs : framed (archive_each env s fs).
Proof. induction fs; simpl; framing. Qed.
#[local] Hint Resolve framed_archive_each : framing.

Lemma framed_transfer_loop s fs lf tr : framed (transfer_loop env s fs lf tr).
Proof.
  revert lf tr. induction fs as [|f fs IH]; intros lf tr; simpl; framing.
Qed.
#[local] Hint Resolve framed_transfer_loop : framing.

Lemma framed_transfer_zip_block s d lf tr : framed (transfer_zip_block env s d lf tr).
Proof. unfold transfer_zip_block. framing. Qed.

End Framing.

#[export] Hint Resolve framed_exit_with framed_config_section framed_sec_item
  framed_load_state framed_download_file framed_dest_put framed_post framed_st_size_of
  framed_notify framed_zip_members_msg framed_transfer_zip framed_transfer_file
  framed_archive framed_self_getattr framed_self_attr_truthy framed_self_call1
  framed_archive_each framed_transfer_loop framed_transfer_zip_block : framing.

(** The class namespace binds [archive] to the method defined last. *)
Lemma SftpSync_ns_archive : assoc "archive" SftpSync_ns = Some (MFunction M_archive).
Proof. reflexivity. Qed.

Lemma SftpSync_ns_archive_file : assoc "archive_file" SftpSync_ns = None.
Proof. reflexivity. Qed.

Lemma attr_archive_truthy s w : self_attr_truthy s "archive" w = (Ok true, w).
Proof. reflexivity. Qed.

Lemma call_archive_file env s f w :
  self_call1 env s "archive_file" f w = (Exc (AttributeError "archive_file"), w).
Proof. reflexivity. Qed.

Lemma archive_each_cons env s f fs w :
  archive_each env s (f :: fs) w = (Exc (AttributeError "archive_file"), w).
Proof. reflexivity. Qed.

Section Runs.

Variable env : Env.

Lemma bind_ok {A B} (m : M A) (k : A -> M B) w a w1 :
  m w = (Ok a, w1) -> bind m k w = k a w1.
Proof. intro E. unfold bind. now rewrite E. Qed.

Lemma bind_exc {A B} (m : M A) (k : A -> M B) w e w1 :
  m w = (Exc e, w1) -> bind m k w = (Exc e, w1).
Proof. intro E. unfold bind. now rewrite E. Qed.

(** A dry run's loop only prints. *)
Lemma transfer_loop_dry s fs lf tr w :
  dry_run s = true -> fst (transfer_loop env s fs lf tr w) = Ok (lf, tr).
Proof.
  intro Hd. revert w. induction fs as [|f fs IH]; intro w; simpl.
  - reflexivity.
  - rewrite Hd. unfold bind at 1. simpl. apply IH.
Qed.

(** In zip mode the loop only downloads: [transferred] is untouched. *)
Lemma transfer_loop_zip s fs lf tr w lf' tr' :
  dry_run s = false -> zip s = true ->
  fst (transfer_loop env s fs lf tr w) = Ok (lf', tr') -> tr' = tr.
Proof.
  intros Hd Hz. revert lf w. induction fs as [|f fs IH]; intros lf w; simpl.
  - congruence.
  - rewrite Hd, Hz. unfold bind at 1.
    destruct (download_file env s f w) as [[lp|e] w1]; simpl.
    + apply IH.
    + discriminate.
Qed.

(** In direct mode the first file of a non-empty diff always ends the
    loop with an exception. *)
Lemma transfer_loop_direct s f fs lf tr w :
  dry_run s = false -> zip s = false ->
  exists e, fst (transfer_loop env s (f :: fs) lf tr w) = Exc e.
Proof.
  intros Hd Hz. simpl. rewrite Hd, Hz. unfold bind at 1.
  destruct (transfer_file env s f w) as [[u|e] w1]; simpl.
  - eauto.
  - eauto.
Qed.

(** Whenever the run reaches [store_state], the list it stores is the
    list it loaded. *)
Lemma loop_block_keeps_loaded s diff tr w lf tr' w1 tr'' w2 :
  transfer_loop env s diff [] tr w = (Ok (lf, tr'), w1) ->
  transfer_zip_block env s diff lf tr' w1 = (Ok tr'', w2) ->
  tr'' = tr.
Proof.
  intros Hl Hb. destruct diff as [|f fs].
  - simpl in Hl. inversion Hl; subst. unfold transfer_zip_block, ret in Hb. simpl in Hb.
    congruence.
  - assert (Hblock : zip s = true -> False).
    { intro Hz. unfold transfer_zip_block in Hb. rewrite Hz in Hb. simpl in Hb.
      unfold bind at 1 in Hb.
      destruct (transfer_zip env s lf (f :: fs) w1) as [[u|e] w3]; [|discriminate].
      unfold bind in Hb. rewrite attr_archive_truthy in Hb. simpl in Hb.
      discriminate. }
    destruct (dry_run s) eqn:Hd.
    + pose proof (transfer_loop_dry s (f :: fs) [] tr w Hd) as H. rewrite Hl in H.
      simpl in H. inversion H; subst.
      destruct (zip s) eqn:Hz; [exfalso; auto|].
      unfold transfer_zip_block, ret in Hb. rewrite Hz in Hb. simpl in Hb. congruence.
    + destruct (zip s) eqn:Hz; [exfalso; auto|].
      destruct (transfer_loop_direct s f fs [] tr w Hd Hz) as [e He].
      rewrite Hl in He. discriminate.
Qed.

Lemma store_state_cases l w :
  stored l (fst (store_state env l w)) (snd (store_state env l w))
  /\ w_trace (snd (store_state env l w)) = w_trace w.
Proof.
  unfold store_state, stored. destruct (env_write_limit env) as [k|].
  - destruct (Nat.ltb k (length (pickle_dumps l))) eqn:E; simpl.
    + split; [right; split; [reflexivity|] | reflexivity].
      exists k. split; [apply Nat.ltb_lt; exact E | reflexivity].
    + split; [left; split; reflexivity | reflexivity].
  - simpl. split; [left; split; reflexivity | reflexivity].
Qed.

(** One step of a bind chain in hypothesis [H]: split on the result of
    the first computation, keeping its equation. *)
Ltac bind_step H E :=
  match type of H with
  | bind ?m ?k ?w = _ =>
      destruct (m w) as [[?a|?e] ?w'] eqn:E;
      [rewrite (bind_ok m k w _ _ E) in H | rewrite (bind_exc m k w _ _ E) in H];
      cbv beta in H
  end.

(** What a framed computation did, read off its equation. *)
Ltac framed_fact E :=
  match type of E with
  | ?m ?w = _ =>
      let F := fresh "F" in
      assert (F : framed m) by (eauto with framing);
      let Hs := fresh "Hs" in let Ht := fresh "Ht" in
      destruct (F w) as [Hs Ht]; rewrite E in Hs, Ht; simpl in Hs, Ht; clear F
  end.

(** Every run of [transfer] either ends with an exception raised before
    [store_state], leaving the state file as it was, or stores (fully or
    partly) exactly the list it loaded. *)
Lemma transfer_outcome s w r w' :
  transfer env s w = (r, w') ->
  (exists d, w_trace w' = (w_trace w ++ d)%list)
  /\ ((w_state w' = w_state w /\ exists e, r = Exc e)
      \/ exists l, load_file w = Some l /\ stored l r w').
Proof.
  intro ET. unfold transfer in ET.
  bind_step ET EL; framed_fact EL.
  2: { inversion ET; subst. split; [assumption | left; split; eauto]. }
  assert (Hl : load_file w = Some a).
  { unfold load_state in EL. destruct (load_file w); congruence. }
  destruct (read_source_files env s) as [s' sf].
  bind_step ET EP; [| discriminate].
  framed_fact EP.
  bind_step ET ELoop; framed_fact ELoop.
  2: { inversion ET; subst. split.
       - destruct Ht as [d Hd], Ht0 as [d0 Hd0]. destruct Ht1 as [d1 Hd1].
         exists (d ++ d0 ++ d1)%list. rewrite Hd1, Hd0, Hd. now rewrite !app_assoc.
       - left. split; [congruence | eauto]. }
  destruct a1 as [lf tr']. cbv beta iota in ET.
  bind_step ET EB; framed_fact EB.
  - pose proof (loop_block_keeps_loaded _ _ _ _ _ _ _ _ _ ELoop EB); subst a1.
    match type of ET with
    | store_state _ _ ?wx = _ => destruct (store_state_cases a wx) as [Hst Htr]
    end.
    rewrite ET in Hst, Htr. simpl in Hst, Htr. split.
    + destruct Ht as [d Hd], Ht0 as [d0 Hd0], Ht1 as [d1 Hd1], Ht2 as [d2 Hd2].
      exists (d ++ d0 ++ d1 ++ d2)%list. rewrite Htr, Hd2, Hd1, Hd0, Hd.
      now rewrite !app_assoc.
    + right. exists a. split; assumption.
  - inversion ET; subst. split.
    + destruct Ht as [d Hd], Ht0 as [d0 Hd0], Ht1 as [d1 Hd1], Ht2 as [d2 Hd2].
      exists (d ++ d0 ++ d1 ++ d2)%list. rewrite Hd2, Hd1, Hd0, Hd.
      now rewrite !app_assoc.
    + left. split; [congruence | eauto].
Qed.

End Runs.
(** ** pickle round trip *)

Lemma load_unicodes_map l rest acc :
  load_unicodes (map UNICODE l ++ APPENDS :: STOP :: rest)%list acc = Some (acc ++ l)%list.
Proof.
  revert acc. induction l as [|x l IH]; intro acc; simpl.
  - now rewrite app_nil_r.
  - rewrite IH. now rewrite <- app_assoc.
Qed.

Lemma pickle_roundtrip l : pickle_loads (pickle_dumps l) = Some l.
Proof.
  destruct l as [|x l]; [reflexivity|].
  unfold pickle_dumps. simpl.
  rewrite <- app_assoc. simpl. apply (load_unicodes_map (x :: l) [] []).
Qed.

Lemma load_unicodes_stop ops acc l : load_unicodes ops acc = Some l -> In STOP ops.
Proof.
  revert acc. induction ops as [|o ops IH]; intro acc; simpl; [discriminate|].
  destruct o; try discriminate.
  - intro H. right. eauto.
  - destruct ops as [|o' ops']; [discriminate|]. destruct o'; try discriminate.
    intros _. right. now left.
Qed.

Lemma pickle_loads_stop ops l : pickle_loads ops = Some l -> In STOP ops.
Proof.
  unfold pickle_loads.
  destruct ops as [|[] [|[] [|[] r]]]; try discriminate; intro H;
    try (right; right; now left);
    right; right; right; eapply load_unicodes_stop; eauto.
Qed.

Lemma pickle_dumps_split l :
  exists p, pickle_dumps l = (p ++ [STOP])%list /\ ~ In STOP p.
Proof.
  unfold pickle_dumps. eexists. rewrite app_assoc. split; [reflexivity|].
  intro H. destruct l as [|x l]; simpl in H;
    rewrite ?in_app_iff, ?in_map_iff in H; simpl in H;
    repeat match goal with
    | H : _ \/ _ |- _ => destruct H
    | H : exists _, _ |- _ => destruct H
    | H : _ /\ _ |- _ => destruct H
    | H : _ = STOP |- _ => discriminate H
    | H : False |- _ => contradiction
    end.
Qed.

(** A state file cut short cannot be read back. *)
Lemma pickle_loads_truncated l k :
  k < length (pickle_dumps l) -> pickle_loads (firstn k (pickle_dumps l)) = None.
Proof.
  intro Hk. destruct (pickle_loads (firstn k (pickle_dumps l))) as [l'|] eqn:E; [|reflexivity].
  exfalso. apply pickle_loads_stop in E.
  destruct (pickle_dumps_split l) as [p [Hp Hn]]. rewrite Hp in Hk, E.
  rewrite length_app in Hk. simpl in Hk.
  rewrite firstn_app in E. replace (k - length p) with 0 in E by lia.
  simpl in E. rewrite app_nil_r in E. apply Hn. rewrite <- (firstn_skipn k p). apply in_or_app. now left.
Qed.

Lemma delivered_app n tr d : delivered n tr -> delivered n (tr ++ d)%list.
Proof.
  intros [[lp H]|[zp [zn [es [H1 [H2 H3]]]]]].
  - left. exists lp. apply in_or_app. now left.
  - right. exists zp, zn, es. repeat split; try (apply in_or_app; now left). exact H3.
Qed.

Lemma filter_all_false {A} (f : A -> bool) l :
  (forall x, In x l -> f x = false) -> filter f l = [].
Proof.
  induction l as [|x l IH]; intro H; simpl; [reflexivity|].
  rewrite (H x (or_introl eq_refl)). apply IH. intros y Hy. apply H. now right.
Qed.

(* ------------------------------------------------------------------ *)
(** ** Claims *)

(** C2: a filename is in the persisted state after a run only if it was
    put to the destination (under its own name, or inside a zip archive
    that was put) before the state was written: if this holds of the
    state file before a run of [transfer], it holds after it. *)
Theorem transfer_persists_only_delivered env s w :
  (forall n, persisted n w -> delivered n (w_trace w)) ->
  forall n, persisted n (snd (transfer env s w)) -> delivered n (w_trace (snd (transfer env s w))).
Proof.
  intros Hinv n Hp.
  destruct (transfer env s w) as [r w'] eqn:ET. simpl in *.
  destruct (transfer_outcome env s w r w' ET) as [[d Hd] [[Hs _] | [l [Hl Hst]]]].
  - rewrite Hd. apply delivered_app. apply Hinv.
    unfold persisted, load_file in *. rewrite Hs in Hp. exact Hp.
  - rewrite Hd. apply delivered_app. apply Hinv.
    destruct Hp as [l' [Hl' Hin]]. unfold load_file in Hl'.
    destruct Hst as [[_ Hs] | [_ [k [Hk Hs]]]]; rewrite Hs in Hl'.
    + rewrite pickle_roundtrip in Hl'. inversion Hl'; subst. exists l'. now split.
    + rewrite pickle_loads_truncated in Hl' by exact Hk. discriminate.
Qed.



(** C9: the diff of [transfer] is the set difference of the remote names
    [source_files] and the loaded list: it has no duplicates, [R - R] is
    empty, [R - []] has the members of [R], and a name of the loaded state
    is never in the diff, whatever the listing. *)
Theorem transfer_diff_is_set_subtraction :
  (forall R T n, In n (transfer_diff R T) <-> In n R /\ ~ In n T)
  /\ (forall R T, NoDup (transfer_diff R T))
  /\ (forall R, transfer_diff R R = [])
  /\ (forall R n, In n (transfer_diff R []) <-> In n R)
  /\ (forall env s loaded n,
        In n loaded -> ~ In n (transfer_diff (snd (read_source_files env s)) loaded)).
Proof.
  assert (Hmem : forall R T n, In n (transfer_diff R T) <-> In n R /\ ~ In n T).
  { intros R T n. unfold transfer_diff, py_set_diff, py_set.
    rewrite filter_In, nodup_In.
    destruct (in_dec string_dec n T); intuition discriminate. }
  split; [exact Hmem|]. split; [|split; [|split]].
  - intros R T. unfold transfer_diff, py_set_diff, py_set.
    apply NoDup_filter, NoDup_nodup.
  - intro R. unfold transfer_diff, py_set_diff, py_set. apply filter_all_false.
    intros x Hx. apply nodup_In in Hx. destruct (in_dec string_dec x R); tauto.
  - intros R n. rewrite Hmem. simpl. tauto.
  - intros env s loaded n Hn Hd. apply Hmem in Hd. tauto.
Qed.

(** Picks a member of a concrete list. *)
Ltac in_list := repeat (first [solve [left; reflexivity] | right]).

(** C1 (code bug): with [--dry-run] in zip mode and files to transfer,
    [main] still writes the zip archive (empty: nothing was downloaded),
    puts it to the destination, and then stops on [self.archive_file]. *)
Lemma dry_run_zip_mode_builds_and_puts :
  let r := main (env_ex listing_abc [] false None) "sync.ini" (cfg_ex true None) true world0 in
  In (EvPrint "Would transfer a.csv") (w_trace (snd r))
  /\ In (EvZipWrite "/srv/arch/myrun-2024-01-01.zip" []) (w_trace (snd r))
  /\ In (EvPut "/srv/arch/myrun-2024-01-01.zip" "myrun-2024-01-01.zip") (w_trace (snd r))
  /\ fst r = Exc (AttributeError "archive_file").
Proof. vm_compute. split; [in_list|]. split; [in_list|]. split; [in_list | reflexivity]. Qed.



(** C6 (counterexample): with [slack] set and the webhook unreachable, the
    failed post after the put of [a.csv] ends the run and [a.csv] is not
    recorded. *)
Lemma notification_failure_aborts_run :
  let r := transfer (env_ex listing_abc [] true None) (sync_ex false false (Some hook)) world0 in
  In (EvPut "/srv/arch/a.csv" "a.csv") (w_trace (snd r))
  /\ fst r = Exc (PostError hook)
  /\ ~ persisted "a.csv" (snd r).
Proof.
  vm_compute. split; [in_list|]. split; [reflexivity|].
  intros [l [Hl Hin]]; inversion Hl; subst; destruct Hin.
Qed.

Lemma assoc_dict_set {A} k k' (v : A) l :
  assoc k (dict_set k' v l) = if String.eqb k k' then Some v else assoc k l.
Proof.
  induction l as [|[k0 v0] l IH]; simpl.
  - reflexivity.
  - destruct (String.eqb k' k0) eqn:E1; simpl.
    + apply String.eqb_eq in E1; subst k0. destruct (String.eqb k k'); reflexivity.
    + destruct (String.eqb k k0) eqn:E2.
      * apply String.eqb_eq in E2; subst k0.
        destruct (String.eqb k k') eqn:E3; [|reflexivity].
        apply String.eqb_eq in E3; subst k'. rewrite String.eqb_refl in E1. discriminate.
      * exact IH.
Qed.

Lemma sec_get_set_port s key v :
  String.eqb (optionxform key) "port" = false ->
  sec_get (sec_set s "PORT" v) key = sec_get s key.
Proof.
  intro H. unfold sec_get, sec_set. rewrite assoc_dict_set.
  change (optionxform "PORT") with "port". now rewrite H.
Qed.

Lemma check_keys_ok s w :
  sec_has s "HOST" = true -> sec_has s "USER" = true -> sec_has s "PASS" = true ->
  check_keys ["HOST"; "USER"; "PASS"] s w = (Ok tt, w).
Proof. intros H1 H2 H3. simpl. now rewrite H1, H2, H3. Qed.

(** C7 (counterexample): with a valid [source] and [PORT = abc] in [dest],
    the source connection is attempted before the program exits. *)
Lemma dest_port_checked_after_source_connection :
  let c := [("source", sec_src); ("dest", sec_dst ++ [("port", "abc")]);
            ("main", main_sec_ex false None)]%list in
  let r := main (env_ex listing_abc [] false None) "sync.ini" c false world0 in
  fst r = Exc (SystemExit 1)
  /\ In (EvConnect "src.example" 22) (w_trace (snd r))
  /\ In (EvPrint "ERROR: PORT must be a number") (w_trace (snd r)).
Proof. vm_compute. split; [reflexivity|]. split; in_list. Qed.

(** C8 (counterexample): a [[main]] section with [name] only makes
    [get_config] exit with status 1. *)
Lemma get_config_rejects_missing_archive_dir :
  let c := [("source", sec_src); ("dest", sec_dst); ("main", [("name", "myrun")])] in
  get_config "sync.ini" c world0
  = (Exc (SystemExit 1), mkWorld None [EvPrint "ERROR: Must define `archive_dir` in [main]"]).
Proof. reflexivity. Qed.

(** C8 (amended): [get_config] accepts a configuration exactly when it has
    the sections [source], [dest] and [main] and [main] defines [name] and
    [archive_dir]; otherwise it prints one error line and exits with
    status 1.  [zip] and [slack] play no part in it, and without [slack]
    [notify] does nothing. *)
Theorem get_config_requires_name_and_archive_dir conf c w :
  (fst (get_config conf c w) = Ok c <->
     has_section c "source" = true /\ has_section c "dest" = true
     /\ exists ms, assoc "main" c = Some ms
                   /\ sec_has ms "name" = true /\ sec_has ms "archive_dir" = true)
  /\ (get_config conf c w = (Ok c, w)
      \/ exists msg, get_config conf c w
                     = (Exc (SystemExit 1), mkWorld (w_state w) (w_trace w ++ [EvPrint msg])%list))
  /\ (forall env s f m ms w', assoc "main" (config s) = Some ms -> sec_get ms "slack" = None ->
        notify env s f m w' = (Ok tt, w')).
Proof.
  split; [|split].
  - unfold get_config, check_sections, REQUIRED_CONFIG_SECTIONS, config_section,
      exit_with, has_section, bind, ret, raise, emit.
    destruct (assoc "source" c), (assoc "dest" c), (assoc "main" c) as [ms|];
      simpl; try (split; [discriminate | intros [H1 [H2 [ms' [H3 _]]]]; discriminate]).
    destruct (sec_has ms "name") eqn:En, (sec_has ms "archive_dir") eqn:Ea; simpl;
      (split; [intro H | intros [_ [_ [ms' [H3 [H4 H5]]]]]; inversion H3; subst ms']);
      try discriminate; try congruence; try reflexivity.
    repeat split; eauto.
  - unfold get_config, check_sections, REQUIRED_CONFIG_SECTIONS, config_section,
      exit_with, has_section, bind, ret, raise, emit.
    destruct (assoc "source" c), (assoc "dest" c), (assoc "main" c) as [ms|]; simpl;
      try (right; eexists; reflexivity).
    destruct (sec_has ms "name"), (sec_has ms "archive_dir"); simpl;
      first [left; reflexivity | right; eexists; reflexivity].
  - intros env s f m ms w' Hm Hs. unfold notify, config_section, bind, ret.
    rewrite Hm. now rewrite Hs.
Qed.

Lemma assoc_In_keys {A} k (l : list (string * A)) :
  In k (map fst l) -> exists v, assoc k l = Some v.
Proof.
  induction l as [|[k' v'] l IH]; simpl; [tauto|].
  intros [H|H].
  - subst k'. rewrite String.eqb_refl. eauto.
  - destruct (String.eqb k k'); eauto.
Qed.

Lemma transfer_diff_In R T n : In n (transfer_diff R T) -> In n R.
Proof.
  unfold transfer_diff, py_set_diff, py_set. rewrite filter_In, nodup_In. tauto.
Qed.

Section DirectRun.

Variable env : Env.
Variable s : SftpSync.
Variables (ms : SectionT) (adir f : string).
Hypothesis Hmain : assoc "main" (config s) = Some ms.
Hypothesis Hadir : sec_get ms "archive_dir" = Some adir.
Hypothesis Hget : env_get_ok env f = true.
Hypothesis Hput : env_put_ok env f = true.
Hypothesis Hpost : forall m, env_post_ok env m = true.
Hypothesis Hknown : In f (map fst (file_details s)).

Lemma notify_ok w : exists w', notify env s f None w = (Ok tt, w') /\ w_state w' = w_state w
                               /\ exists d, w_trace w' = (w_trace w ++ d)%list.
Proof.
  destruct (framed_notify env s f None w) as [Hs Ht].
  destruct (notify env s f None w) as [r w'] eqn:E. exists w'. split; [|split; assumption].
  f_equal. unfold notify, config_section, bind, ret in E. rewrite Hmain in E.
  destruct (truthy_opt (sec_get ms "slack")) eqn:Es; [|simpl in E; congruence].
  destruct (assoc_In_keys _ _ Hknown) as [sz Hsz].
  unfold st_size_of in E. rewrite Hsz in E. simpl in E.
  unfold sec_item in E. destruct (sec_get ms "slack"); [|discriminate].
  unfold post in E. rewrite Hpost in E. simpl in E. unfold emit in E. simpl in E. congruence.
Qed.

Lemma transfer_file_ok w :
  exists w', transfer_file env s f w = (Ok tt, w') /\ w_state w' = w_state w
             /\ In (EvPut (os_path_join adir f) f) (w_trace w').
Proof.
  unfold transfer_file.
  assert (Hd : download_file env s f w
               = (Ok (os_path_join adir f),
                  mkWorld (w_state w) (w_trace w ++ [EvGet f (os_path_join adir f)])%list)).
  { unfold download_file, config_section, sec_item, bind, ret, emit.
    rewrite Hmain, Hadir, Hget. reflexivity. }
  rewrite (bind_ok _ _ _ _ _ Hd).
  match goal with
  | |- context [bind (dest_put env ?l f) ?k ?w1] =>
      assert (Hp : dest_put env l f w1 = (Ok tt, mkWorld (w_state w1) (w_trace w1 ++ [EvPut l f])%list))
        by (unfold dest_put; now rewrite Hput);
      rewrite (bind_ok _ _ _ _ _ Hp)
  end.
  match goal with
  | |- context [notify env s f None ?w1] =>
      destruct (notify_ok w1) as [w2 [Hn [Hs [d Hdt]]]]; rewrite Hn
  end.
  exists w2. split; [reflexivity|]. simpl in Hs, Hdt. split; [exact Hs|].
  rewrite Hdt. apply in_or_app. left. apply in_or_app. right. now left.
Qed.

(** In direct mode the first file of the diff is fetched and put, and
    then the archival branch stops the loop on [self.archive_file]. *)
Lemma transfer_loop_direct_first rest lf tr w :
  dry_run s = false -> zip s = false ->
  exists w', transfer_loop env s (f :: rest) lf tr w = (Exc (AttributeError "archive_file"), w')
             /\ w_state w' = w_state w /\ In (EvPut (os_path_join adir f) f) (w_trace w').
Proof.
  intros Hd Hz. destruct (transfer_file_ok w) as [w1 [Ht [Hs Hin]]].
  exists w1. cbn [transfer_loop]. rewrite Hd, Hz.
  rewrite (bind_ok _ _ _ _ _ Ht). cbv beta zeta.
  rewrite (bind_ok _ _ _ _ _ (attr_archive_truthy s w1)). cbv beta iota.
  rewrite (bind_exc _ _ _ _ _ (call_archive_file env s f w1)).
  auto.
Qed.

End DirectRun.

(** C10: [self.archive] is the method [archive] in every configuration
    (the later [def archive(self, filename)] replaces the property), so it
    is truthy; in a direct-mode run that is not a dry run, once the first
    file of the diff is put, the archival branch calls the undefined
    [self.archive_file], which raises [AttributeError] and ends the run
    before anything is stored. *)
Theorem archive_method_shadows_property env s w loaded ms adir f rest :
  load_file w = Some loaded ->
  dry_run s = false -> zip s = false ->
  assoc "main" (config s) = Some ms -> sec_get ms "archive_dir" = Some adir ->
  transfer_diff (map fst (record_details (env_listing env) (file_details s))) loaded = f :: rest ->
  env_get_ok env f = true -> env_put_ok env f = true -> (forall m, env_post_ok env m = true) ->
  (forall s' w0, self_attr_truthy s' "archive" w0 = (Ok true, w0))
  /\ fst (transfer env s w) = Exc (AttributeError "archive_file")
  /\ w_state (snd (transfer env s w)) = w_state w
  /\ In (EvPut (os_path_join adir f) f) (w_trace (snd (transfer env s w))).
Proof.
  intros Hl Hd Hz Hm Ha Hdiff Hg Hp Hpo.
  split; [intros; apply attr_archive_truthy|].
  assert (Hk : In f (map fst (record_details (env_listing env) (file_details s)))).
  { apply (transfer_diff_In _ loaded). rewrite Hdiff. now left. }
  unfold transfer.
  rewrite (bind_ok _ _ w loaded w) by (unfold load_state; now rewrite Hl).
  unfold read_source_files. cbv beta iota zeta. rewrite Hdiff.
  match goal with
  | |- context [bind (emit ?ev) ?k w] => rewrite (bind_ok (emit ev) k w tt _ eq_refl)
  end.
  match goal with
  | |- context [bind (transfer_loop env ?s1 (f :: rest) [] loaded) ?k ?w1] =>
      destruct (transfer_loop_direct_first env s1 ms adir f Hm Ha Hg Hp Hpo Hk rest [] loaded w1
                  Hd Hz) as [w2 [Hloop [Hs Hin]]];
      rewrite (bind_exc _ _ _ _ _ Hloop)
  end.
  simpl in *. auto.
Qed.

(* ------------------------------------------------------------------ *)
(** ** Witnesses: the claims' hypotheses hold of concrete runs *)

Lemma transfer_persists_only_delivered_witness :
  (forall n, persisted n world_a -> delivered n (w_trace world_a))
  /\ (forall n, persisted n (snd (transfer (env_ex listing_abc [] false None)
                                           (sync_ex false true None) world_a))
                -> delivered n (w_trace (snd (transfer (env_ex listing_abc [] false None)
                                                       (sync_ex false true None) world_a)))).
Proof.
  assert (H : forall n, persisted n world_a -> delivered n (w_trace world_a)).
  { intros n [l [Hl Hin]]. vm_compute in Hl. inversion Hl; subst.
    destruct Hin as [<-|[]]. left. exists "/srv/arch/a.csv". simpl. now left. }
  split; [exact H | exact (transfer_persists_only_delivered _ _ _ H)].
Defined.

Lemma archive_method_shadows_property_witness :
  fst (transfer (env_ex listing_abc [] false None) (sync_ex false false None) world0)
    = Exc (AttributeError "archive_file")
  /\ In (EvPut "/srv/arch/a.csv" "a.csv")
        (w_trace (snd (transfer (env_ex listing_abc [] false None) (sync_ex false false None) world0))).
Proof.
  destruct (archive_method_shadows_property (env_ex listing_abc [] false None)
              (sync_ex false false None) world0 [] (main_sec_ex false None) "/srv/arch"
              "a.csv" ["b.csv"; "c.csv"])
    as [_ [Hr [_ Hin]]];
    try reflexivity; try (vm_compute; reflexivity).
  split; [exact Hr | exact Hin].
Defined.

(* ================================================================== *)
(** * Further properties of the script *)

Lemma load_file_same_state w1 w2 : w_state w1 = w_state w2 -> load_file w1 = load_file w2.
Proof. intro H. unfold load_file. now rewrite H. Qed.

Lemma framed_check_sections conf secs c : framed (check_sections conf secs c).
Proof. induction secs; simpl; framing; apply framed_exit_with. Qed.

Lemma framed_check_keys keys s : framed (check_keys keys s).
Proof. induction keys; simpl; framing; apply framed_exit_with. Qed.

Lemma framed_get_config conf c : framed (get_config conf c).
Proof.
  unfold get_config. apply framed_bind; [apply framed_check_sections | intros _].
  framing; apply framed_exit_with.
Qed.

Lemma framed_validate_sftp_config env s : framed (_validate_sftp_config env s).
Proof.
  unfold _validate_sftp_config, _validate_port, py_int_M.
  apply framed_bind; [apply framed_check_keys | intros _]. framing; apply framed_exit_with.
Qed.

Lemma framed_get_sftp_connection env s : framed (get_sftp_connection env s).
Proof.
  unfold get_sftp_connection, py_int_M.
  apply framed_bind; [apply framed_validate_sftp_config | intro]. framing.
Qed.

Lemma framed_SftpSync_init env c dry : framed (SftpSync_init env c dry).
Proof.
  unfold SftpSync_init. cbv zeta.
  repeat (apply framed_bind; [first [apply framed_get_sftp_connection | eauto with framing] | intro]);
    repeat match goal with
    | |- framed (let '(_, _) := ?r in _) => destruct r
    | |- framed (bind _ _) =>
        apply framed_bind; [first [apply framed_get_sftp_connection | eauto with framing] | intro]
    end;
    eauto with framing.
Qed.


(** [bind] after a framed computation: either the first step succeeds
    without touching the state file, or the whole run fails with the
    state file as it was. *)
Lemma framed_then {A B} (m : M A) (k : A -> M B) w r w' :
  framed m -> bind m k w = (r, w') ->
  (exists a w1, m w = (Ok a, w1) /\ k a w1 = (r, w') /\ w_state w1 = w_state w)
  \/ (w_state w' = w_state w /\ exists e, r = Exc e).
Proof.
  intros F E. destruct (F w) as [Hs _]. unfold bind in E.
  destruct (m w) as [[a|e] w1] eqn:Em; simpl in Hs.
  - left. eauto.
  - right. inversion E; subst. eauto.
Qed.

Lemma get_config_cases conf c w :
  (get_config conf c w = (Ok c, w)
   /\ (has_section c "source" = true /\ has_section c "dest" = true
       /\ exists ms, assoc "main" c = Some ms
                     /\ sec_has ms "name" = true /\ sec_has ms "archive_dir" = true))
  \/ (exists msg, get_config conf c w
                  = (Exc (SystemExit 1), mkWorld (w_state w) (w_trace w ++ [EvPrint msg])%list)
      /\ ~ (has_section c "source" = true /\ has_section c "dest" = true
            /\ exists ms, assoc "main" c = Some ms
                          /\ sec_has ms "name" = true /\ sec_has ms "archive_dir" = true)).
Proof.
  unfold get_config, check_sections, REQUIRED_CONFIG_SECTIONS, config_section,
    exit_with, has_section, bind, ret, raise, emit.
  destruct (assoc "source" c), (assoc "dest" c), (assoc "main" c) as [ms|]; simpl;
    try (right; eexists; split; [reflexivity | intros [H1 [H2 [ms' [H3 _]]]]; discriminate]).
  destruct (sec_has ms "name") eqn:En, (sec_has ms "archive_dir") eqn:Ea; simpl.
  - left. split; [reflexivity|]. repeat split. eauto.
  - right. eexists. split; [reflexivity|].
    intros [_ [_ [ms' [H3 [_ H5]]]]]. inversion H3; subst. congruence.
  - right. eexists. split; [reflexivity|].
    intros [_ [_ [ms' [H3 [H4 _]]]]]. inversion H3; subst. congruence.
  - right. eexists. split; [reflexivity|].
    intros [_ [_ [ms' [H3 [H4 _]]]]]. inversion H3; subst. congruence.
Qed.

Lemma validate_sftp_config_ok env s w :
  sec_has s "HOST" = true -> sec_has s "USER" = true -> sec_has s "PASS" = true ->
  (forall p, sec_get s "PORT" = Some p -> py_int env p <> None) ->
  _validate_sftp_config env s w = (Ok (sec_set s "PORT" "22"), w).
Proof.
  intros H1 H2 H3 Hp. unfold _validate_sftp_config.
  rewrite (bind_ok _ _ _ _ _ (check_keys_ok s w H1 H2 H3)).
  unfold _validate_port. destruct (sec_get s "PORT") as [p|] eqn:Ep.
  - destruct (py_int env p) eqn:Ei; [reflexivity|]. exfalso. exact (Hp p eq_refl Ei).
  - reflexivity.
Qed.

Lemma sec_get_port_22 s : sec_get (sec_set s "PORT" "22") "PORT" = Some "22".
Proof. unfold sec_get, sec_set. rewrite assoc_dict_set. reflexivity. Qed.

Lemma get_sftp_connection_eq env s w host user pass :
  sec_get s "HOST" = Some host -> sec_get s "USER" = Some user -> sec_get s "PASS" = Some pass ->
  (forall p, sec_get s "PORT" = Some p -> py_int env p <> None) ->
  get_sftp_connection env s w
  = if env_connect_ok env host 22 user pass then
      match sec_get s "DIR" with
      | Some d =>
          if truthy d then
            if env_chdir_ok env host d
            then (Ok (sec_set s "PORT" "22", mkConn host 22),
                  mkWorld (w_state w) (w_trace w ++ [EvConnect host 22; EvChdir host d])%list)
            else (Exc (IOErrorChdir d), mkWorld (w_state w) (w_trace w ++ [EvConnect host 22])%list)
          else (Ok (sec_set s "PORT" "22", mkConn host 22),
                mkWorld (w_state w) (w_trace w ++ [EvConnect host 22])%list)
      | None => (Ok (sec_set s "PORT" "22", mkConn host 22),
                 mkWorld (w_state w) (w_trace w ++ [EvConnect host 22])%list)
      end
    else (Exc (ConnError host), mkWorld (w_state w) (w_trace w ++ [EvConnect host 22])%list).
Proof.
  intros Hh Hu Hp Hport.
  assert (Hh' : sec_has s "HOST" = true) by (unfold sec_has; now rewrite Hh).
  assert (Hu' : sec_has s "USER" = true) by (unfold sec_has; now rewrite Hu).
  assert (Hp' : sec_has s "PASS" = true) by (unfold sec_has; now rewrite Hp).
  unfold get_sftp_connection.
  rewrite (bind_ok _ _ _ _ _ (validate_sftp_config_ok env s w Hh' Hu' Hp' Hport)).
  assert (G : forall k, String.eqb (optionxform k) "port" = false ->
                        sec_get (sec_set s "PORT" "22") k = sec_get s k)
    by (intros; apply sec_get_set_port; auto).
  unfold sec_item, py_int_M, bind, ret, raise, emit.
  rewrite (G "HOST" eq_refl), Hh, sec_get_port_22.
  change (py_int env "22") with (Some 22%Z). cbv beta iota.
  rewrite (G "USER" eq_refl), Hu, (G "PASS" eq_refl), Hp. cbv beta iota.
  destruct (env_connect_ok env host 22 user pass); [|reflexivity].
  rewrite (G "DIR" eq_refl).
  destruct (sec_get s "DIR") as [d|]; simpl.
  - destruct (truthy d); simpl; [|reflexivity].
    destruct (env_chdir_ok env host d); simpl; [|reflexivity].
    now rewrite <- app_assoc.
  - reflexivity.
Qed.

Lemma get_sftp_connection_ok env s w host user pass :
  sec_get s "HOST" = Some host -> sec_get s "USER" = Some user -> sec_get s "PASS" = Some pass ->
  (forall p, sec_get s "PORT" = Some p -> py_int env p <> None) ->
  env_connect_ok env host 22 user pass = true -> chdir_succeeds env host s = true ->
  get_sftp_connection env s w
  = (Ok (sec_set s "PORT" "22", mkConn host 22),
     mkWorld (w_state w) (w_trace w ++ EvConnect host 22 :: chdir_events host s)%list).
Proof.
  intros Hh Hu Hp Hport Hc Hd.
  rewrite (get_sftp_connection_eq env s w host user pass Hh Hu Hp Hport), Hc.
  unfold chdir_succeeds in Hd. unfold chdir_events.
  destruct (sec_get s "DIR") as [d|]; [|reflexivity].
  destruct (truthy d); [|reflexivity]. now rewrite Hd.
Qed.

Lemma assoc_dest_source {A} (v : A) c : assoc "dest" (dict_set "source" v c) = assoc "dest" c.
Proof. rewrite assoc_dict_set. reflexivity. Qed.

Lemma SftpSync_init_eq env c dry w ms nm ss sd hs hd us ps ud pd :
  assoc "main" c = Some ms -> sec_get ms "name" = Some nm ->
  assoc "source" c = Some ss -> sec_get ss "HOST" = Some hs ->
  sec_get ss "USER" = Some us -> sec_get ss "PASS" = Some ps ->
  (forall p, sec_get ss "PORT" = Some p -> py_int env p <> None) ->
  assoc "dest" c = Some sd -> sec_get sd "HOST" = Some hd ->
  sec_get sd "USER" = Some ud -> sec_get sd "PASS" = Some pd ->
  (forall p, sec_get sd "PORT" = Some p -> py_int env p <> None) ->
  env_connect_ok env hs 22 us ps = true -> chdir_succeeds env hs ss = true ->
  env_connect_ok env hd 22 ud pd = true -> chdir_succeeds env hd sd = true ->
  SftpSync_init env c dry w
  = (Ok (mkSftpSync (dict_set "dest" (sec_set sd "PORT" "22")
                      (dict_set "source" (sec_set ss "PORT" "22") c))
                    ("." ++ nm ++ ".pickle") (truthy_opt (sec_get ms "zip"))
                    (mkConn hs 22) (mkConn hd 22) dry []),
     mkWorld (w_state w) (w_trace w ++ EvConnect hs 22 :: chdir_events hs ss
                                     ++ EvConnect hd 22 :: chdir_events hd sd)%list).
Proof.
  intros Hm Hn Hs Hsh Hsu Hsp Hsport Hd Hdh Hdu Hdp Hdport Hcs Hchs Hcd Hchd.
  unfold SftpSync_init, config_section, sec_item, bind, ret.
  rewrite Hm. cbv beta iota. rewrite Hn. cbv beta iota zeta. rewrite Hs. cbv beta iota.
  rewrite (get_sftp_connection_ok env ss w hs us ps Hsh Hsu Hsp Hsport Hcs Hchs). cbv beta iota zeta.
  rewrite assoc_dest_source, Hd. cbv beta iota.
  rewrite (get_sftp_connection_ok env sd _ hd ud pd Hdh Hdu Hdp Hdport Hcd Hchd). cbv beta iota zeta.
  simpl. now rewrite <- app_assoc.
Qed.

Lemma keys_dict_set {A} n k (v : A) d :
  In n (map fst (dict_set k v d)) <-> n = k \/ In n (map fst d).
Proof.
  induction d as [|[k' v'] d IH]; simpl.
  - intuition congruence.
  - destruct (String.eqb k k') eqn:E; simpl.
    + apply String.eqb_eq in E; subst. intuition congruence.
    + rewrite IH. intuition congruence.
Qed.

Lemma NoDup_dict_set {A} k (v : A) d :
  NoDup (map fst d) -> NoDup (map fst (dict_set k v d)).
Proof.
  induction d as [|[k' v'] d IH]; simpl; intro H.
  - constructor; [intros []|constructor].
  - inversion H as [|x l Hn Hd]; subst.
    destruct (String.eqb k k') eqn:E; simpl.
    + apply String.eqb_eq in E; subst. constructor; assumption.
    + constructor; [|auto]. rewrite keys_dict_set. intros [Hk|Hk]; [|contradiction].
      subst. rewrite String.eqb_refl in E. discriminate.
Qed.

Lemma record_details_keys files d n :
  In n (map fst (record_details files d))
  <-> In n (map fst d) \/ exists sz, In (n, sz) files /\ sz <> 0%Z.
Proof.
  revert d. induction files as [|[f sz] files IH]; intro d; simpl.
  - split; [auto | intros [H|[sz [[] _]]]; exact H].
  - rewrite IH. destruct (Z.eqb sz 0) eqn:E.
    + apply Z.eqb_eq in E. subst. split.
      * intros [H|[sz' [H1 H2]]]; [auto | right; eauto].
      * intros [H|[sz' [[H1|H1] H2]]]; [auto | inversion H1; subst; contradiction | right; eauto].
    + apply Z.eqb_neq in E. rewrite keys_dict_set. split.
      * intros [[H|H]|[sz' [H1 H2]]]; [subst; right; eauto | auto | right; eauto].
      * intros [H|[sz' [[H1|H1] H2]]]; [auto | inversion H1; subst; auto | right; eauto].
Qed.

Lemma record_details_nodup files d :
  NoDup (map fst d) -> NoDup (map fst (record_details files d)).
Proof.
  revert d. induction files as [|[f sz] files IH]; intros d H; simpl; [exact H|].
  apply IH. destruct (Z.eqb sz 0); [exact H | apply NoDup_dict_set; exact H].
Qed.

Lemma transfer_loop_dry_eq env s fs lf tr w :
  dry_run s = true ->
  transfer_loop env s fs lf tr w
  = (Ok (lf, tr),
     mkWorld (w_state w) (w_trace w ++ map (fun f => EvPrint ("Would transfer " ++ f)) fs)%list).
Proof.
  intro Hd. revert w. induction fs as [|f fs IH]; intro w; simpl.
  - destruct w; simpl. now rewrite app_nil_r.
  - rewrite Hd. unfold bind at 1. simpl. rewrite IH. simpl. now rewrite <- app_assoc.
Qed.

Lemma download_file_eq env s f w ms adir :
  assoc "main" (config s) = Some ms -> sec_get ms "archive_dir" = Some adir ->
  env_get_ok env f = true ->
  download_file env s f w
  = (Ok (os_path_join adir f),
     mkWorld (w_state w) (w_trace w ++ [EvGet f (os_path_join adir f)])%list).
Proof.
  intros Hm Ha Hg. unfold download_file, config_section, sec_item, bind, ret, emit.
  rewrite Hm. cbv beta iota. rewrite Ha. cbv beta iota zeta. rewrite Hg. reflexivity.
Qed.

Lemma transfer_loop_zip_eq env s fs lf tr w ms adir :
  dry_run s = false -> zip s = true ->
  assoc "main" (config s) = Some ms -> sec_get ms "archive_dir" = Some adir ->
  (forall f, In f fs -> env_get_ok env f = true) ->
  transfer_loop env s fs lf tr w
  = (Ok (lf ++ map (os_path_join adir) fs, tr)%list,
     mkWorld (w_state w) (w_trace w ++ map (fun f => EvGet f (os_path_join adir f)) fs)%list).
Proof.
  intros Hd Hz Hm Ha Hg. revert lf w. induction fs as [|f fs IH]; intros lf w.
  - destruct w; cbn. now rewrite !app_nil_r.
  - cbn [transfer_loop]. rewrite Hd, Hz.
    rewrite (bind_ok _ _ _ _ _ (download_file_eq env s f w ms adir Hm Ha (Hg f (or_introl eq_refl)))).
    rewrite IH by (intros; apply Hg; now right). cbn [w_state w_trace map].
    now rewrite <- !app_assoc.
Qed.

Lemma zip_members_msg_ok s fs msg w :
  (forall f, In f fs -> exists sz, assoc f (file_details s) = Some sz) ->
  exists msg', zip_members_msg s fs msg w = (Ok msg', w).
Proof.
  revert msg. induction fs as [|f fs IH]; intros msg H; simpl.
  - eexists; reflexivity.
  - destruct (H f (or_introl eq_refl)) as [sz Hsz].
    unfold bind, st_size_of. rewrite Hsz. unfold ret. cbv beta iota.
    apply IH. intros; apply H; now right.
Qed.

(** [notify] when every webhook post succeeds: it sends at most posts. *)
Lemma notify_posts_ok env s f m w ms :
  assoc "main" (config s) = Some ms -> (forall t, env_post_ok env t = true) ->
  (truthy_opt m = false -> exists sz, assoc f (file_details s) = Some sz) ->
  exists d, notify env s f m w = (Ok tt, mkWorld (w_state w) (w_trace w ++ d)%list)
            /\ forall e, In e d -> exists u t, e = EvPost u t.
Proof.
  intros Hm Hp Hsz.
  unfold notify, config_section, sec_item, st_size_of, post, bind, ret, emit.
  rewrite Hm. cbv beta iota.
  destruct (sec_get ms "slack") as [u|] eqn:Es; simpl;
    [| exists []; rewrite app_nil_r; destruct w; split; [reflexivity | intros e []]].
  destruct (truthy u); simpl;
    [| exists []; rewrite app_nil_r; destruct w; split; [reflexivity | intros e []]].
  destruct (truthy_opt m) eqn:Et.
  - rewrite Hp. eexists; split; [reflexivity|]. intros e [<-|[]]. eauto.
  - destruct (Hsz eq_refl) as [sz Hf]. rewrite Hf. cbv beta iota. rewrite Hp.
    eexists; split; [reflexivity|]. intros e [<-|[]]. eauto.
Qed.

(** [notify] with a truthy [slack] URL when every webhook post fails. *)
Lemma notify_post_fails env s f m w ms u :
  assoc "main" (config s) = Some ms -> sec_get ms "slack" = Some u -> truthy u = true ->
  (forall t, env_post_ok env t = false) ->
  (truthy_opt m = false -> exists sz, assoc f (file_details s) = Some sz) ->
  notify env s f m w = (Exc (PostError u), w).
Proof.
  intros Hm Hs Ht Hp Hsz.
  unfold notify, config_section, sec_item, st_size_of, post, bind, ret, raise.
  rewrite Hm. cbv beta iota. rewrite Hs. simpl. rewrite Ht.
  destruct (truthy_opt m) eqn:Et.
  - rewrite Hp. reflexivity.
  - destruct (Hsz eq_refl) as [sz Hf]. rewrite Hf. cbv beta iota. rewrite Hp. reflexivity.
Qed.

(** [transfer_file] whose fetch and put succeed ends with [notify]. *)
Lemma transfer_file_eq env s f w ms adir :
  assoc "main" (config s) = Some ms -> sec_get ms "archive_dir" = Some adir ->
  env_get_ok env f = true -> env_put_ok env f = true ->
  transfer_file env s f w
  = notify env s f None (mkWorld (w_state w) (w_trace w ++ [EvGet f (os_path_join adir f);
                                                            EvPut (os_path_join adir f) f])%list).
Proof.
  intros Hm Ha Hg Hp. unfold transfer_file.
  rewrite (bind_ok _ _ _ _ _ (download_file_eq env s f w ms adir Hm Ha Hg)).
  unfold dest_put, bind, emit. rewrite Hp. simpl. now rewrite <- app_assoc.
Qed.

(** [transfer_zip] whose zip write and put succeed ends with [notify]
    and a truthy message. *)
Lemma transfer_zip_eq env s lf fs w ms nm adir :
  assoc "main" (config s) = Some ms -> sec_get ms "name" = Some nm ->
  sec_get ms "archive_dir" = Some adir ->
  env_zip_ok env (os_path_join adir (nm ++ "-" ++ env_today env ++ ".zip")) lf = true ->
  env_put_ok env (nm ++ "-" ++ env_today env ++ ".zip") = true ->
  (forall f, In f fs -> exists sz, assoc f (file_details s) = Some sz) ->
  exists m, truthy m = true
    /\ transfer_zip env s lf fs w
       = notify env s (nm ++ "-" ++ env_today env ++ ".zip") (Some m)
           (mkWorld (w_state w)
              (w_trace w ++ [EvZipWrite (os_path_join adir (nm ++ "-" ++ env_today env ++ ".zip"))
                                        (map os_path_basename lf);
                             EvPut (os_path_join adir (nm ++ "-" ++ env_today env ++ ".zip"))
                                   (nm ++ "-" ++ env_today env ++ ".zip")])%list).
Proof.
  intros Hm Hn Ha Hz Hput Hfs.
  unfold transfer_zip, config_section, sec_item, dest_put, bind, ret, emit.
  rewrite Hm. cbv beta iota. rewrite Hn. cbv beta iota zeta. rewrite Ha. cbv beta iota zeta.
  rewrite Hz. cbv beta iota. rewrite Hput. cbv beta iota.
  match goal with
  | |- context [zip_members_msg s fs ?m0 ?w0] =>
      destruct (zip_members_msg_ok s fs m0 w0 Hfs) as [msg' E]; rewrite E
  end.
  cbv beta iota zeta. exists (msg' ++ "```"). split; [destruct msg'; reflexivity|].
  simpl. now rewrite <- app_assoc.
Qed.

Lemma bind_inv_ok {A B} (m : M A) (k : A -> M B) w x w' :
  bind m k w = (Ok x, w') -> exists a w1, m w = (Ok a, w1) /\ k a w1 = (Ok x, w').
Proof. unfold bind. destruct (m w) as [[a|e] w1]; [eauto | discriminate]. Qed.

(** The zip block with a non-empty diff never completes: after
    [transfer_zip] it calls the undefined [self.archive_file]. *)
Lemma zip_block_fails env s f fs lf tr w :
  zip s = true -> exists e, fst (transfer_zip_block env s (f :: fs) lf tr w) = Exc e.
Proof.
  intro Hz. unfold transfer_zip_block. rewrite Hz. cbn [andb].
  destruct (transfer_zip env s lf (f :: fs) w) as [[u|e] w3] eqn:Ez.
  - rewrite (bind_ok _ _ _ _ _ Ez). cbv beta zeta.
    rewrite (bind_ok _ _ w3 true w3 (attr_archive_truthy s w3)). cbv beta iota.
    rewrite (bind_exc _ _ _ _ _ (archive_each_cons env s f fs w3)). eexists; reflexivity.
  - rewrite (bind_exc _ _ _ _ _ Ez). eexists; reflexivity.
Qed.

(** [transfer] after [load_state] succeeded, the listing was read and the
    count printed: the loop, the zip block and [store_state] remain. *)
Lemma transfer_after_print env s w l :
  load_file w = Some l ->
  transfer env s w
  = bind (transfer_loop env (with_file_details s (record_details (env_listing env) (file_details s)))
            (transfer_diff (map fst (record_details (env_listing env) (file_details s))) l) [] l)
      (fun r => let '(local_files, transferred) := r in
                transferred <- transfer_zip_block env
                                 (with_file_details s (record_details (env_listing env) (file_details s)))
                                 (transfer_diff (map fst (record_details (env_listing env)
                                                            (file_details s))) l)
                                 local_files transferred ;;
                store_state env transferred)
      (mkWorld (w_state w)
         (w_trace w ++ [EvPrint ("Found "
                                 ++ str_of_nat (length (transfer_diff (map fst (record_details
                                                    (env_listing env) (file_details s))) l))
                                 ++ " files to transfer.")])%list).
Proof.
  intro Hl. unfold transfer.
  rewrite (bind_ok _ _ w l w) by (unfold load_state; now rewrite Hl).
  unfold read_source_files. cbv beta iota zeta.
  match goal with
  | |- bind (emit ?ev) ?k ?w0 = _ => rewrite (bind_ok (emit ev) k w0 tt _ eq_refl)
  end.
  reflexivity.
Qed.

(** The direct-mode loop on a non-empty list: after [transfer_file] of the
    first file, the archival branch raises [AttributeError]. *)
Lemma transfer_loop_direct_cons env s f rest lf tr w :
  dry_run s = false -> zip s = false ->
  transfer_loop env s (f :: rest) lf tr w
  = match transfer_file env s f w with
    | (Ok _, w1) => (Exc (AttributeError "archive_file"), w1)
    | (Exc e, w1) => (Exc e, w1)
    end.
Proof.
  intros Hd Hz. cbn [transfer_loop]. rewrite Hd, Hz.
  destruct (transfer_file env s f w) as [[u|e] w1] eqn:E.
  - rewrite (bind_ok _ _ _ _ _ E). cbv beta zeta.
    rewrite (bind_ok _ _ _ _ _ (attr_archive_truthy s w1)). cbv beta iota.
    apply (bind_exc _ _ _ _ _ (call_archive_file env s f w1)).
  - apply (bind_exc _ _ _ _ _ E).
Qed.

(** The zip block on a non-empty diff: a failing [transfer_zip] ends it
    with its exception, a completed one is followed by the archival
    branch, which raises [AttributeError]. *)
Lemma transfer_zip_block_cons env s f rest lf tr w :
  zip s = true ->
  transfer_zip_block env s (f :: rest) lf tr w
  = match transfer_zip env s lf (f :: rest) w with
    | (Ok _, w1) => (Exc (AttributeError "archive_file"), w1)
    | (Exc e, w1) => (Exc e, w1)
    end.
Proof.
  intro Hz. unfold transfer_zip_block. rewrite Hz. cbn [andb].
  destruct (transfer_zip env s lf (f :: rest) w) as [[u|e] w1] eqn:E.
  - rewrite (bind_ok _ _ _ _ _ E). cbv beta zeta.
    rewrite (bind_ok _ _ _ _ _ (attr_archive_truthy s w1)). cbv beta iota.
    apply (bind_exc _ _ _ _ _ (archive_each_cons env s f rest w1)).
  - apply (bind_exc _ _ _ _ _ E).
Qed.


(* ------------------------------------------------------------------ *)
(** ** The state file *)

(** [store_state] then [load_state]: once [store_state(files)] has
    completed, [load_state] returns exactly [files]; storing prints or
    sends nothing. *)
Theorem store_state_then_load_state env files w w' :
  store_state env files w = (Ok tt, w') ->
  load_state w' = (Ok files, w') /\ w_trace w' = w_trace w.
Proof.
  intro E. destruct (store_state_cases env files w) as [Hst Htr].
  rewrite E in Hst, Htr. simpl in Hst, Htr.
  destruct Hst as [[_ Hs] | [Hr _]]; [|discriminate].
  split; [|exact Htr].
  unfold load_state, load_file. rewrite Hs, pickle_roundtrip. reflexivity.
Qed.

(** [main]: no run of the program changes the list [load_state] reads
    from the state file, unless writing the state file itself fails.  A
    run either stops with an exception before [store_state], or stores
    the list it loaded. *)
Theorem main_never_changes_loaded_state env conf c dry w r w' :
  main env conf c dry w = (r, w') -> r <> Exc OSErrorWrite -> load_file w' = load_file w.
Proof.
  intros E Hr. unfold main in E.
  apply framed_then in E; [| destruct dry; framing].
  destruct E as [[u [w1 [_ [E Hs1]]]] | [Hs _]]; [| now apply load_file_same_state].
  apply framed_then in E; [| apply framed_get_config].
  destruct E as [[c' [w2 [_ [E Hs2]]]] | [Hs _]]; [| apply load_file_same_state; congruence].
  apply framed_then in E; [| apply framed_SftpSync_init].
  destruct E as [[s [w3 [_ [E Hs3]]]] | [Hs _]]; [| apply load_file_same_state; congruence].
  destruct (transfer_outcome env s w3 r w' E) as [_ [[Hs _] | [l [Hl Hst]]]].
  - apply load_file_same_state; congruence.
  - destruct Hst as [[-> Hs] | [Hr' _]]; [| contradiction].
    rewrite (load_file_same_state w w3) by congruence. rewrite Hl.
    unfold load_file. rewrite Hs. apply pickle_roundtrip.
Qed.

(* ------------------------------------------------------------------ *)
(** ** Configuration and connections *)

(** [main] with a configuration [get_config] rejects (a missing section
    [source], [dest] or [main], or [main] without [name] or
    [archive_dir]): the program exits with status 1 after printing one
    error line (after the dry-run banner, when given), before any
    connection, and the state file is untouched. *)
Theorem main_config_error_exits_before_connecting env conf c dry w :
  ~ (has_section c "source" = true /\ has_section c "dest" = true
     /\ exists ms, assoc "main" c = Some ms
                   /\ sec_has ms "name" = true /\ sec_has ms "archive_dir" = true) ->
  fst (main env conf c dry w) = Exc (SystemExit 1)
  /\ exists msg,
       snd (main env conf c dry w)
       = mkWorld (w_state w)
           (w_trace w
            ++ (if dry then [EvPrint ("--dry-run specified.  Nothing will be transferred" ++ nl)]
                else [])
            ++ [EvPrint msg])%list.
Proof.
  intro Hbad. unfold main.
  set (w1 := mkWorld (w_state w)
               (w_trace w ++ (if dry then [EvPrint ("--dry-run specified.  Nothing will be transferred" ++ nl)]
                              else []))%list).
  assert (E1 : (if dry then emit (EvPrint ("--dry-run specified.  Nothing will be transferred" ++ nl))
                else ret tt) w = (Ok tt, w1)).
  { unfold w1. destruct dry; [reflexivity|]. destruct w; simpl. now rewrite app_nil_r. }
  rewrite (bind_ok _ _ _ _ _ E1).
  destruct (get_config_cases conf c w1) as [[_ Hok] | [msg [E2 _]]]; [contradiction|].
  rewrite (bind_exc _ _ _ _ _ E2). split; [reflexivity|].
  exists msg. unfold w1. simpl. now rewrite <- app_assoc.
Qed.

(** [_validate_sftp_config]: the keys are checked in the order [HOST],
    [USER], [PASS], before [PORT]; the first missing one prints
    [ERROR: Missing key `K`] and exits with status 1. *)
Theorem validate_sftp_config_missing_key env s w :
  (sec_has s "HOST" = false ->
     _validate_sftp_config env s w
     = (Exc (SystemExit 1), mkWorld (w_state w) (w_trace w ++ [EvPrint "ERROR: Missing key `HOST`"])%list))
  /\ (sec_has s "HOST" = true -> sec_has s "USER" = false ->
     _validate_sftp_config env s w
     = (Exc (SystemExit 1), mkWorld (w_state w) (w_trace w ++ [EvPrint "ERROR: Missing key `USER`"])%list))
  /\ (sec_has s "HOST" = true -> sec_has s "USER" = true -> sec_has s "PASS" = false ->
     _validate_sftp_config env s w
     = (Exc (SystemExit 1), mkWorld (w_state w) (w_trace w ++ [EvPrint "ERROR: Missing key `PASS`"])%list)).
Proof.
  unfold _validate_sftp_config, check_keys, exit_with, bind, ret, raise, emit.
  repeat split; intros; repeat match goal with H : sec_has _ _ = _ |- _ => rewrite H; clear H end;
    reflexivity.
Qed.

(** [_validate_sftp_config] on a section with [HOST], [USER] and [PASS]
    and a [PORT] that is absent or accepted by [int()]: the section comes
    back with [PORT] set to ["22"], whatever port was configured, and
    every other option unchanged. *)
Theorem validate_sftp_config_sets_port_22 env s w :
  sec_has s "HOST" = true -> sec_has s "USER" = true -> sec_has s "PASS" = true ->
  (forall p, sec_get s "PORT" = Some p -> py_int env p <> None) ->
  _validate_sftp_config env s w = (Ok (sec_set s "PORT" "22"), w)
  /\ sec_get (sec_set s "PORT" "22") "PORT" = Some "22"
  /\ (forall key, optionxform key <> "port" -> sec_get (sec_set s "PORT" "22") key = sec_get s key).
Proof.
  intros H1 H2 H3 Hp. split; [apply validate_sftp_config_ok; assumption|].
  split; [apply sec_get_port_22|].
  intros key Hk. apply sec_get_set_port. now apply String.eqb_neq.
Qed.

(** [get_sftp_connection] on a valid section: the connection to [HOST] is
    attempted on port 22 with [USER] and [PASS]; if it fails the error
    propagates; otherwise, when [DIR] is truthy, the client changes into
    it and a failed [chdir] propagates; on success the section, now with
    [PORT = 22], and the connection are returned. *)
Theorem get_sftp_connection_outcome env s w host user pass :
  sec_get s "HOST" = Some host -> sec_get s "USER" = Some user -> sec_get s "PASS" = Some pass ->
  (forall p, sec_get s "PORT" = Some p -> py_int env p <> None) ->
  get_sftp_connection env s w
  = if env_connect_ok env host 22 user pass then
      match sec_get s "DIR" with
      | Some d =>
          if truthy d then
            if env_chdir_ok env host d
            then (Ok (sec_set s "PORT" "22", mkConn host 22),
                  mkWorld (w_state w) (w_trace w ++ [EvConnect host 22; EvChdir host d])%list)
            else (Exc (IOErrorChdir d), mkWorld (w_state w) (w_trace w ++ [EvConnect host 22])%list)
          else (Ok (sec_set s "PORT" "22", mkConn host 22),
                mkWorld (w_state w) (w_trace w ++ [EvConnect host 22])%list)
      | None => (Ok (sec_set s "PORT" "22", mkConn host 22),
                 mkWorld (w_state w) (w_trace w ++ [EvConnect host 22])%list)
      end
    else (Exc (ConnError host), mkWorld (w_state w) (w_trace w ++ [EvConnect host 22])%list).
Proof. intros. apply get_sftp_connection_eq; assumption. Qed.

(** [SftpSync.__init__] on a valid configuration whose two connections
    (and changes into [DIR]) succeed: [self.config] is the configuration
    with [PORT = 22] written into its [source] and [dest] sections, the
    state file is [.<name>.pickle], zip mode is on exactly when [zip] is
    set to a non-empty string (so [zip = 0] or [zip = false] also turn it
    on), both connections use port 22, the source is connected (and
    changed into its [DIR]) before the destination, and [file_details]
    starts empty. *)
Theorem SftpSync_init_outcome env c dry w ms nm ss sd hs hd us ps ud pd :
  assoc "main" c = Some ms -> sec_get ms "name" = Some nm ->
  assoc "source" c = Some ss -> sec_get ss "HOST" = Some hs ->
  sec_get ss "USER" = Some us -> sec_get ss "PASS" = Some ps ->
  (forall p, sec_get ss "PORT" = Some p -> py_int env p <> None) ->
  assoc "dest" c = Some sd -> sec_get sd "HOST" = Some hd ->
  sec_get sd "USER" = Some ud -> sec_get sd "PASS" = Some pd ->
  (forall p, sec_get sd "PORT" = Some p -> py_int env p <> None) ->
  env_connect_ok env hs 22 us ps = true -> chdir_succeeds env hs ss = true ->
  env_connect_ok env hd 22 ud pd = true -> chdir_succeeds env hd sd = true ->
  SftpSync_init env c dry w
  = (Ok (mkSftpSync (dict_set "dest" (sec_set sd "PORT" "22")
                      (dict_set "source" (sec_set ss "PORT" "22") c))
                    ("." ++ nm ++ ".pickle")
                    (match sec_get ms "zip" with
                     | Some v => negb (String.eqb v "")
                     | None => false
                     end)
                    (mkConn hs 22) (mkConn hd 22) dry []),
     mkWorld (w_state w) (w_trace w ++ EvConnect hs 22 :: chdir_events hs ss
                                     ++ EvConnect hd 22 :: chdir_events hd sd)%list).
Proof.
  intros. rewrite (SftpSync_init_eq env c dry w ms nm ss sd hs hd us ps ud pd); try assumption.
  destruct (sec_get ms "zip") as [[|a v]|]; reflexivity.
Qed.

(* ------------------------------------------------------------------ *)
(** ** The source listing and the runs of [transfer] *)

(** [read_source_files]: the names it returns have no duplicates, and a
    name is among them exactly when it was already in [file_details] or
    the listing has an entry of that name with a non-zero size
    (zero-size entries are skipped). *)
Theorem read_source_files_names env s :
  NoDup (map fst (file_details s)) ->
  NoDup (snd (read_source_files env s))
  /\ forall n, In n (snd (read_source_files env s))
               <-> In n (map fst (file_details s))
                   \/ exists sz, In (n, sz) (env_listing env) /\ sz <> 0%Z.
Proof.
  intro H. unfold read_source_files. simpl.
  split; [apply record_details_nodup; exact H | intro n; apply record_details_keys].
Qed.

(** [transfer] with nothing new to transfer, in any mode: the run prints
    [Found 0 files to transfer.], fetches, puts and posts nothing, and
    writes the loaded list back to the state file. *)
Theorem transfer_nothing_new env s w l :
  load_file w = Some l -> env_write_limit env = None ->
  transfer_diff (map fst (record_details (env_listing env) (file_details s))) l = [] ->
  transfer env s w
  = (Ok tt, mkWorld (Some (pickle_dumps l))
                    (w_trace w ++ [EvPrint "Found 0 files to transfer."])%list).
Proof.
  intros Hl Hw Hd. unfold transfer.
  rewrite (bind_ok _ _ w l w) by (unfold load_state; now rewrite Hl).
  unfold read_source_files. cbv beta iota zeta. rewrite Hd.
  unfold store_state. rewrite Hw. reflexivity.
Qed.

(** [transfer] in a dry run with zip mode off: it prints the number of
    files and [Would transfer <name>] for each file of the diff, fetches,
    puts and posts nothing, and writes the loaded list back. *)
Theorem dry_run_direct_mode_only_prints env s w l :
  dry_run s = true -> zip s = false -> load_file w = Some l -> env_write_limit env = None ->
  transfer env s w
  = (Ok tt,
     mkWorld (Some (pickle_dumps l))
       (w_trace w
        ++ EvPrint ("Found "
                    ++ str_of_nat (length (transfer_diff (map fst (record_details (env_listing env)
                                                                   (file_details s))) l))
                    ++ " files to transfer.")
        :: map (fun f => EvPrint ("Would transfer " ++ f))
               (transfer_diff (map fst (record_details (env_listing env) (file_details s))) l))%list).
Proof.
  intros Hd Hz Hl Hw. unfold transfer.
  rewrite (bind_ok _ _ w l w) by (unfold load_state; now rewrite Hl).
  unfold read_source_files. cbv beta iota zeta.
  match goal with
  | |- bind (emit ?ev) ?k ?w0 = _ => rewrite (bind_ok (emit ev) k w0 tt _ eq_refl)
  end.
  match goal with
  | |- bind (transfer_loop env ?s1 ?fs [] l) ?k ?w1 = _ =>
      rewrite (bind_ok _ k w1 _ _ (transfer_loop_dry_eq env s1 fs [] l w1 Hd))
  end.
  cbv beta iota. unfold transfer_zip_block. cbn [with_file_details zip]. rewrite Hz, andb_false_r.
  unfold ret. cbv beta iota. unfold store_state. rewrite Hw.
  cbn [w_trace w_state]. now rewrite <- app_assoc.
Qed.

(** [transfer] completes without an exception only when the diff is
    empty, or in a dry run with zip mode off; every other run ends with
    an exception. *)
Theorem transfer_completes_only_without_work env s w :
  fst (transfer env s w) = Ok tt ->
  exists l, load_file w = Some l
    /\ (transfer_diff (map fst (record_details (env_listing env) (file_details s))) l = []
        \/ (dry_run s = true /\ zip s = false)).
Proof.
  intro H. destruct (transfer env s w) as [r w'] eqn:ET. simpl in H. subst r.
  unfold transfer in ET.
  apply bind_inv_ok in ET as [l [w1 [El ET]]].
  assert (Hl : load_file w = Some l /\ w1 = w)
    by (unfold load_state in El; destruct (load_file w); inversion El; auto).
  destruct Hl as [Hl ->]. exists l. split; [exact Hl|].
  unfold read_source_files in ET. cbv beta iota zeta in ET.
  apply bind_inv_ok in ET as [u [w2 [_ ET]]].
  apply bind_inv_ok in ET as [[lf tr] [w3 [ELoop ET]]].
  cbv beta iota in ET.
  apply bind_inv_ok in ET as [tr' [w4 [EB _]]].
  destruct (transfer_diff (map fst (record_details (env_listing env) (file_details s))) l)
    as [|f fs] eqn:Ed; [now left | right].
  destruct (dry_run s) eqn:Hd, (zip s) eqn:Hz; try (split; reflexivity); exfalso.
  - destruct (zip_block_fails env
                (with_file_details s (record_details (env_listing env) (file_details s)))
                f fs lf tr w3 Hz) as [e He].
    rewrite EB in He. discriminate.
  - destruct (zip_block_fails env
                (with_file_details s (record_details (env_listing env) (file_details s)))
                f fs lf tr w3 Hz) as [e He].
    rewrite EB in He. discriminate.
  - destruct (transfer_loop_direct env
                (with_file_details s (record_details (env_listing env) (file_details s)))
                f fs [] l w2 Hd Hz) as [e He].
    rewrite ELoop in He. discriminate.
Qed.

(** [transfer] in zip mode, not a dry run, with files to transfer whose
    fetches, zip write and put succeed: the run prints the count, fetches
    every file of the diff into [archive_dir], writes the zip archive
    [<name>-<date>.zip] there with the downloaded files' base names as
    entries, puts it to the destination and posts the notification when
    [slack] is set; then the archival step ([self.archive_file]) raises
    [AttributeError], the run ends and the state file is left as it
    was. *)
Theorem zip_mode_run_aborts_after_zip_put env s w l ms nm adir f rest :
  dry_run s = false -> zip s = true -> load_file w = Some l ->
  assoc "main" (config s) = Some ms -> sec_get ms "name" = Some nm ->
  sec_get ms "archive_dir" = Some adir ->
  transfer_diff (map fst (record_details (env_listing env) (file_details s))) l = f :: rest ->
  (forall g, In g (f :: rest) -> env_get_ok env g = true) ->
  env_zip_ok env (os_path_join adir (nm ++ "-" ++ env_today env ++ ".zip"))
    (map (os_path_join adir) (f :: rest)) = true ->
  env_put_ok env (nm ++ "-" ++ env_today env ++ ".zip") = true ->
  (forall t, env_post_ok env t = true) ->
  fst (transfer env s w) = Exc (AttributeError "archive_file")
  /\ w_state (snd (transfer env s w)) = w_state w
  /\ exists d,
       w_trace (snd (transfer env s w))
       = (w_trace w
          ++ EvPrint ("Found " ++ str_of_nat (length (f :: rest)) ++ " files to transfer.")
          :: map (fun g => EvGet g (os_path_join adir g)) (f :: rest)
          ++ [EvZipWrite (os_path_join adir (nm ++ "-" ++ env_today env ++ ".zip"))
                         (map os_path_basename (map (os_path_join adir) (f :: rest)));
              EvPut (os_path_join adir (nm ++ "-" ++ env_today env ++ ".zip"))
                    (nm ++ "-" ++ env_today env ++ ".zip")]
          ++ d)%list
     /\ forall e, In e d -> exists u t, e = EvPost u t.
Proof.
  intros Hd Hz Hl Hm Hn Ha Hdiff Hg Hzip Hput Hpo.
  assert (Hk : forall g, In g (f :: rest) ->
                 exists sz, assoc g (record_details (env_listing env) (file_details s)) = Some sz).
  { intros g Hin. apply assoc_In_keys. apply (transfer_diff_In _ l). now rewrite Hdiff. }
  rewrite (transfer_after_print env s w l Hl), Hdiff.
  match goal with
  | |- context [bind (transfer_loop env ?s1 (f :: rest) [] l) ?k ?w1] =>
      rewrite (bind_ok _ k w1 _ _ (transfer_loop_zip_eq env s1 (f :: rest) [] l w1 ms adir
                                     Hd Hz Hm Ha Hg))
  end.
  cbv beta iota.
  match goal with
  | |- context [bind (transfer_zip_block env ?s1 ?fs ?lf ?tr) ?k ?w1] =>
      destruct (transfer_zip_eq env s1 lf fs w1 ms nm adir Hm Hn Ha Hzip Hput Hk)
        as [m [Hm' Ez]];
      pose proof (transfer_zip_block_cons env s1 f rest lf tr w1 Hz) as Eb;
      rewrite Ez in Eb;
      match type of Eb with
      | context [notify env s1 ?zf (Some m) ?w2] =>
          destruct (notify_posts_ok env s1 zf (Some m) w2 ms Hm Hpo
                      ltac:(cbn [truthy_opt]; rewrite Hm'; discriminate))
            as [d [En Hd']];
          rewrite En in Eb
      end;
      rewrite (bind_exc _ _ _ _ _ Eb)
  end.
  simpl. split; [reflexivity|]. split; [reflexivity|].
  exists d. split; [|exact Hd']. now rewrite <- !app_assoc.
Qed.

(** [get_config] reports the first problem it finds, in this order: the
    sections [source], [dest], [main] (the message names the section and
    the config file), then [name] in [main], then [archive_dir]; each
    prints one line and exits with status 1. *)
Theorem get_config_first_error conf c w :
  (has_section c "source" = false ->
     get_config conf c w
     = (Exc (SystemExit 1),
        mkWorld (w_state w) (w_trace w ++ [EvPrint ("ERROR: `source` must be defined in config file ("
                                                    ++ conf ++ ")")])%list))
  /\ (has_section c "source" = true -> has_section c "dest" = false ->
     get_config conf c w
     = (Exc (SystemExit 1),
        mkWorld (w_state w) (w_trace w ++ [EvPrint ("ERROR: `dest` must be defined in config file ("
                                                    ++ conf ++ ")")])%list))
  /\ (has_section c "source" = true -> has_section c "dest" = true -> has_section c "main" = false ->
     get_config conf c w
     = (Exc (SystemExit 1),
        mkWorld (w_state w) (w_trace w ++ [EvPrint ("ERROR: `main` must be defined in config file ("
                                                    ++ conf ++ ")")])%list))
  /\ (forall ms, has_section c "source" = true -> has_section c "dest" = true ->
     assoc "main" c = Some ms -> sec_has ms "name" = false ->
     get_config conf c w
     = (Exc (SystemExit 1),
        mkWorld (w_state w) (w_trace w ++ [EvPrint "ERROR: Must define `name` in [main]"])%list)).
Proof.
  unfold get_config, check_sections, REQUIRED_CONFIG_SECTIONS, config_section,
    exit_with, bind, ret, raise, emit.
  repeat split; intros;
    repeat match goal with
    | H : assoc "main" c = Some _ |- _ =>
        assert (has_section c "main" = true) by (unfold has_section; now rewrite H);
        rewrite H; clear H
    | H : has_section _ _ = _ |- _ => rewrite H; clear H
    | H : sec_has _ _ = _ |- _ => rewrite H; clear H
    end; reflexivity.
Qed.

(** [notify(filename)] with a truthy [slack] URL and no message: it posts
    [Transferred <filename> (<size> bytes)] to that URL, with the size
    recorded in [file_details]; nothing else happens. *)
Theorem notify_default_message env s f w ms url sz :
  assoc "main" (config s) = Some ms -> sec_get ms "slack" = Some url -> truthy url = true ->
  assoc f (file_details s) = Some sz ->
  env_post_ok env ("Transferred " ++ f ++ " (" ++ str_of_Z sz ++ " bytes)") = true ->
  notify env s f None w
  = (Ok tt, mkWorld (w_state w)
              (w_trace w ++ [EvPost url ("Transferred " ++ f ++ " (" ++ str_of_Z sz ++ " bytes)")])%list).
Proof.
  intros Hm Hs Ht Hf Hp.
  unfold notify, config_section, sec_item, st_size_of, post, bind, ret, emit.
  rewrite Hm. cbv beta iota. rewrite Hs. cbv [truthy_opt]. rewrite Ht. cbv beta iota.
  rewrite Hf. cbv beta iota. rewrite Hp. reflexivity.
Qed.

(** [transfer_file(filename)] without [slack]: the file is fetched to
    [os.path.join(archive_dir, filename)] and put to the destination
    under its own name; a failed fetch stops before the put, a failed put
    stops after the fetch. *)
Theorem transfer_file_outcome env s f w ms adir :
  assoc "main" (config s) = Some ms -> sec_get ms "archive_dir" = Some adir ->
  sec_get ms "slack" = None ->
  transfer_file env s f w
  = if env_get_ok env f then
      if env_put_ok env f then
        (Ok tt, mkWorld (w_state w) (w_trace w ++ [EvGet f (os_path_join adir f);
                                                    EvPut (os_path_join adir f) f])%list)
      else (Exc (IOErrorPut f), mkWorld (w_state w) (w_trace w ++ [EvGet f (os_path_join adir f)])%list)
    else (Exc (IOErrorGet f), w).
Proof.
  intros Hm Ha Hs.
  unfold transfer_file, download_file, notify, config_section, sec_item, dest_put,
    bind, ret, raise, emit.
  rewrite Hm. cbv beta iota. rewrite Ha. cbv beta iota zeta.
  destruct (env_get_ok env f); [|reflexivity]. cbv beta iota.
  destruct (env_put_ok env f); [|reflexivity]. cbv beta iota.
  rewrite Hs. simpl. now rewrite <- app_assoc.
Qed.

(* ------------------------------------------------------------------ *)
(** ** Witnesses for the further properties *)

Lemma store_state_then_load_state_witness :
  load_state (mkWorld (Some (pickle_dumps ["a.csv"])) [])
  = (Ok ["a.csv"], mkWorld (Some (pickle_dumps ["a.csv"])) []).
Proof.
  exact (proj1 (store_state_then_load_state (env_ex listing_abc [] false None) ["a.csv"] world0
                  (mkWorld (Some (pickle_dumps ["a.csv"])) []) eq_refl)).
Defined.

Lemma main_never_changes_loaded_state_witness :
  load_file (snd (main (env_ex listing_abc [] false None) "sync.ini" (cfg_ex false None) true world_a))
  = load_file world_a.
Proof.
  apply (main_never_changes_loaded_state (env_ex listing_abc [] false None) "sync.ini"
           (cfg_ex false None) true world_a
           (fst (main (env_ex listing_abc [] false None) "sync.ini" (cfg_ex false None) true world_a))
           (snd (main (env_ex listing_abc [] false None) "sync.ini" (cfg_ex false None) true world_a))).
  - vm_compute. reflexivity.
  - vm_compute. discriminate.
Defined.

Lemma main_config_error_exits_before_connecting_witness :
  fst (main (env_ex listing_abc [] false None) "sync.ini"
         [("source", sec_src); ("dest", sec_dst); ("main", [("name", "myrun")])] false world0)
  = Exc (SystemExit 1).
Proof.
  apply (proj1 (main_config_error_exits_before_connecting (env_ex listing_abc [] false None)
                  "sync.ini" [("source", sec_src); ("dest", sec_dst); ("main", [("name", "myrun")])]
                  false world0 ltac:(intros [_ [_ [ms [Hm [_ Ha]]]]]; vm_compute in Hm;
                                     injection Hm as <-; vm_compute in Ha; discriminate))).
Defined.

Lemma validate_sftp_config_sets_port_22_witness :
  _validate_sftp_config (env_ex listing_abc [] false None) (sec_src ++ [("port", "2_222")])%list world0
  = (Ok (sec_set (sec_src ++ [("port", "2_222")])%list "PORT" "22"), world0).
Proof.
  apply (proj1 (validate_sftp_config_sets_port_22 (env_ex listing_abc [] false None)
                  (sec_src ++ [("port", "2_222")])%list world0
                  eq_refl eq_refl eq_refl
                  ltac:(intros p Hp; vm_compute in Hp; injection Hp as <-; vm_compute; discriminate))).
Defined.

Lemma get_sftp_connection_outcome_witness :
  get_sftp_connection (env_ex listing_abc [] false None) (sec_src ++ [("dir", "/inbox")])%list world0
  = (Ok (sec_src ++ [("dir", "/inbox"); ("port", "22")], mkConn "src.example" 22)%list,
     mkWorld None [EvConnect "src.example" 22; EvChdir "src.example" "/inbox"]).
Proof.
  rewrite (get_sftp_connection_outcome (env_ex listing_abc [] false None)
             (sec_src ++ [("dir", "/inbox")])%list world0 "src.example" "u" "p" eq_refl eq_refl eq_refl
             ltac:(intros p Hp; vm_compute in Hp; discriminate)).
  vm_compute. reflexivity.
Defined.

Lemma SftpSync_init_outcome_witness :
  fst (SftpSync_init (env_ex listing_abc [] false None) (cfg_ex true None) false world0)
  = Ok (mkSftpSync (cfg_init true None) ".myrun.pickle" true conn_src conn_dst false []).
Proof.
  rewrite (SftpSync_init_outcome (env_ex listing_abc [] false None) (cfg_ex true None) false world0
             (main_sec_ex true None) "myrun" sec_src sec_dst "src.example" "dst.example"
             "u" "p" "u" "p"
             eq_refl eq_refl eq_refl eq_refl eq_refl eq_refl
             ltac:(intros p Hp; vm_compute in Hp; discriminate)
             eq_refl eq_refl eq_refl eq_refl
             ltac:(intros p Hp; vm_compute in Hp; discriminate)
             eq_refl eq_refl eq_refl eq_refl).
  vm_compute. reflexivity.
Defined.

Lemma read_source_files_names_witness :
  NoDup (snd (read_source_files (env_ex listing_abc [] false None) (sync_ex false false None))).
Proof.
  exact (proj1 (read_source_files_names (env_ex listing_abc [] false None)
                  (sync_ex false false None) (NoDup_nil string))).
Defined.

Lemma transfer_nothing_new_witness :
  transfer (env_ex listing_abc [] false None) (sync_ex true false None)
    (mkWorld (Some (pickle_dumps ["a.csv"; "b.csv"; "c.csv"])) [])
  = (Ok tt, mkWorld (Some (pickle_dumps ["a.csv"; "b.csv"; "c.csv"]))
                    [EvPrint "Found 0 files to transfer."]).
Proof.
  apply (transfer_nothing_new (env_ex listing_abc [] false None) (sync_ex true false None)
           (mkWorld (Some (pickle_dumps ["a.csv"; "b.csv"; "c.csv"])) [])
           ["a.csv"; "b.csv"; "c.csv"]).
  - reflexivity.
  - reflexivity.
  - vm_compute. reflexivity.
Defined.

Lemma dry_run_direct_mode_only_prints_witness :
  transfer (env_ex listing_abc [] false None) (sync_ex false true None) world_a
  = (Ok tt, mkWorld (Some (pickle_dumps ["a.csv"]))
              [EvPut "/srv/arch/a.csv" "a.csv"; EvPrint "Found 2 files to transfer.";
               EvPrint "Would transfer b.csv"; EvPrint "Would transfer c.csv"]).
Proof.
  rewrite (dry_run_direct_mode_only_prints (env_ex listing_abc [] false None)
             (sync_ex false true None) world_a ["a.csv"] eq_refl eq_refl eq_refl eq_refl).
  vm_compute. reflexivity.
Defined.

Lemma transfer_completes_only_without_work_witness :
  exists l, load_file world0 = Some l
    /\ (transfer_diff (map fst (record_details (env_listing (env_ex listing_abc [] false None))
                                  (file_details (sync_ex false true None)))) l = []
        \/ (dry_run (sync_ex false true None) = true /\ zip (sync_ex false true None) = false)).
Proof.
  apply (transfer_completes_only_without_work (env_ex listing_abc [] false None)
           (sync_ex false true None) world0).
  vm_compute. reflexivity.
Defined.

Lemma zip_mode_run_aborts_after_zip_put_witness :
  fst (transfer (env_ex listing_abc [] false None) (sync_ex true false None) world0)
  = Exc (AttributeError "archive_file").
Proof.
  apply (proj1 (zip_mode_run_aborts_after_zip_put (env_ex listing_abc [] false None)
                  (sync_ex true false None) world0 [] (main_sec_ex true None) "myrun" "/srv/arch"
                  "a.csv" ["b.csv"; "c.csv"] eq_refl eq_refl eq_refl eq_refl eq_refl eq_refl
                  ltac:(vm_compute; reflexivity)
                  ltac:(intros g _; reflexivity) eq_refl eq_refl ltac:(intros t; reflexivity))).
Defined.

Lemma notify_default_message_witness :
  notify (env_ex listing_abc [] false None)
    (mkSftpSync (cfg_ex false (Some hook)) ".myrun.pickle" false conn_src conn_dst false
                [("a.csv", 10%Z)]) "a.csv" None world0
  = (Ok tt, mkWorld None [EvPost hook "Transferred a.csv (10 bytes)"]).
Proof.
  rewrite (notify_default_message (env_ex listing_abc [] false None)
             (mkSftpSync (cfg_ex false (Some hook)) ".myrun.pickle" false conn_src conn_dst false
                         [("a.csv", 10%Z)]) "a.csv" world0 (main_sec_ex false (Some hook)) hook 10%Z
             eq_refl eq_refl eq_refl eq_refl eq_refl).
  vm_compute. reflexivity.
Defined.

Lemma transfer_file_outcome_witness :
  transfer_file (env_ex listing_abc ["b.csv"] false None) (sync_ex false false None) "b.csv" world0
  = (Exc (IOErrorPut "b.csv"), mkWorld None [EvGet "b.csv" "/srv/arch/b.csv"]).
Proof.
  rewrite (transfer_file_outcome (env_ex listing_abc ["b.csv"] false None) (sync_ex false false None)
             "b.csv" world0 (main_sec_ex false None) "/srv/arch" eq_refl eq_refl eq_refl).
  vm_compute. reflexivity.
Defined.

(* ================================================================== *)
(** * Failures during a run and the order of the connections *)

#[export] Hint Resolve framed_get_sftp_connection : framing.

Lemma bind_trace_prefix {A B} (m : M A) (k : A -> M B) w :
  (forall a, framed (k a)) -> exists d, w_trace (snd (bind m k w)) = (w_trace (snd (m w)) ++ d)%list.
Proof.
  intro F. unfold bind. destruct (m w) as [[a|e] w1]; simpl.
  - destruct (F a w1) as [_ [d Hd]]. eauto.
  - exists []. now rewrite app_nil_r.
Qed.

Lemma get_sftp_connection_bad_port env s w p :
  sec_has s "HOST" = true -> sec_has s "USER" = true -> sec_has s "PASS" = true ->
  sec_get s "PORT" = Some p -> py_int env p = None ->
  get_sftp_connection env s w
  = (Exc (SystemExit 1),
     mkWorld (w_state w) (w_trace w ++ [EvPrint "ERROR: PORT must be a number"])%list).
Proof.
  intros H1 H2 H3 Hport Hint. unfold get_sftp_connection.
  assert (Hv : _validate_sftp_config env s w
               = (Exc (SystemExit 1),
                  mkWorld (w_state w) (w_trace w ++ [EvPrint "ERROR: PORT must be a number"])%list)).
  { unfold _validate_sftp_config. rewrite (bind_ok _ _ _ _ _ (check_keys_ok s w H1 H2 H3)).
    unfold _validate_port. rewrite Hport, Hint. reflexivity. }
  now rewrite (bind_exc _ _ _ _ _ Hv).
Qed.

(** Without [PORT], the first action of [get_sftp_connection] is the
    connection attempt on port 22. *)
Lemma get_sftp_connection_connects_first env s w host :
  sec_get s "HOST" = Some host -> sec_has s "USER" = true -> sec_has s "PASS" = true ->
  sec_get s "PORT" = None ->
  exists d, w_trace (snd (get_sftp_connection env s w)) = (w_trace w ++ EvConnect host 22 :: d)%list.
Proof.
  intros Hh Hu Hp Hport. unfold sec_has in Hu, Hp.
  destruct (sec_get s "USER") as [user|] eqn:Eu; [|discriminate].
  destruct (sec_get s "PASS") as [pass|] eqn:Ep; [|discriminate].
  rewrite (get_sftp_connection_eq env s w host user pass Hh Eu Ep
             ltac:(intros p Hp'; rewrite Hport in Hp'; discriminate)).
  destruct (env_connect_ok env host 22 user pass); [|eexists; reflexivity].
  destruct (sec_get s "DIR") as [d|]; [|eexists; reflexivity].
  destruct (truthy d); [|eexists; reflexivity].
  destruct (env_chdir_ok env host d); eexists; reflexivity.
Qed.

(** [__init__] reaches the source connection without any action. *)
Lemma SftpSync_init_source env c dry w ms nm ss :
  assoc "main" c = Some ms -> sec_get ms "name" = Some nm -> assoc "source" c = Some ss ->
  exists k, (forall a, framed (k a)) /\ SftpSync_init env c dry w = bind (get_sftp_connection env ss) k w.
Proof.
  intros Hm Hn Hs. unfold SftpSync_init.
  rewrite (bind_ok (config_section c "main") _ w ms w) by (unfold config_section; now rewrite Hm).
  rewrite (bind_ok (sec_item ms "name") _ w nm w) by (unfold sec_item; now rewrite Hn).
  cbv zeta.
  rewrite (bind_ok (config_section c "source") _ w ss w) by (unfold config_section; now rewrite Hs).
  match goal with |- exists k, _ /\ bind _ ?K _ = _ => exists K end.
  split; [|reflexivity]. intro a. framing.
Qed.

(** Once the source is connected, [__init__] turns to the [dest]
    section. *)
Lemma SftpSync_init_dest env c dry w ms nm ss sd hs us ps :
  assoc "main" c = Some ms -> sec_get ms "name" = Some nm ->
  assoc "source" c = Some ss -> sec_get ss "HOST" = Some hs ->
  sec_get ss "USER" = Some us -> sec_get ss "PASS" = Some ps ->
  (forall p, sec_get ss "PORT" = Some p -> py_int env p <> None) ->
  env_connect_ok env hs 22 us ps = true -> chdir_succeeds env hs ss = true ->
  assoc "dest" c = Some sd ->
  exists k, (forall a, framed (k a))
    /\ SftpSync_init env c dry w
       = bind (get_sftp_connection env sd) k
           (mkWorld (w_state w) (w_trace w ++ EvConnect hs 22 :: chdir_events hs ss)%list).
Proof.
  intros Hm Hn Hs Hh Hu Hp Hport Hc Hch Hd.
  unfold SftpSync_init.
  rewrite (bind_ok (config_section c "main") _ w ms w) by (unfold config_section; now rewrite Hm).
  rewrite (bind_ok (sec_item ms "name") _ w nm w) by (unfold sec_item; now rewrite Hn).
  cbv zeta.
  rewrite (bind_ok (config_section c "source") _ w ss w) by (unfold config_section; now rewrite Hs).
  rewrite (bind_ok _ _ _ _ _ (get_sftp_connection_ok env ss w hs us ps Hh Hu Hp Hport Hc Hch)).
  cbv beta iota zeta.
  rewrite (bind_ok (config_section _ "dest") _ _ sd _)
    by (unfold config_section; now rewrite assoc_dest_source, Hd).
  match goal with |- exists k, _ /\ bind _ ?K _ = _ => exists K end.
  split; [|reflexivity]. intro a. framing.
Qed.

(** C7 (amended): [__init__] validates and connects the [source] section,
    then the [dest] section.  For each of them, with [HOST], [USER] and
    [PASS] present: without [PORT] the connection attempt is made on port
    22; with a [PORT] that [int()] rejects, the program prints
    [ERROR: PORT must be a number] and exits with status 1 before that
    connection is attempted.  For [dest] this happens after the source
    connection (and its change into [DIR]) has been made. *)
Theorem SftpSync_init_validates_ports env c dry w ms nm ss sd hs hd us ps :
  assoc "main" c = Some ms -> sec_get ms "name" = Some nm ->
  assoc "source" c = Some ss -> sec_get ss "HOST" = Some hs ->
  sec_get ss "USER" = Some us -> sec_get ss "PASS" = Some ps ->
  assoc "dest" c = Some sd -> sec_get sd "HOST" = Some hd ->
  sec_has sd "USER" = true -> sec_has sd "PASS" = true ->
  (sec_get ss "PORT" = None ->
     exists d, w_trace (snd (SftpSync_init env c dry w)) = (w_trace w ++ EvConnect hs 22 :: d)%list)
  /\ (forall p, sec_get ss "PORT" = Some p -> py_int env p = None ->
        SftpSync_init env c dry w
        = (Exc (SystemExit 1),
           mkWorld (w_state w) (w_trace w ++ [EvPrint "ERROR: PORT must be a number"])%list))
  /\ ((forall p, sec_get ss "PORT" = Some p -> py_int env p <> None) ->
      env_connect_ok env hs 22 us ps = true -> chdir_succeeds env hs ss = true ->
      (sec_get sd "PORT" = None ->
         exists d, w_trace (snd (SftpSync_init env c dry w))
                   = (w_trace w ++ EvConnect hs 22 :: chdir_events hs ss ++ EvConnect hd 22 :: d)%list)
      /\ (forall p, sec_get sd "PORT" = Some p -> py_int env p = None ->
            SftpSync_init env c dry w
            = (Exc (SystemExit 1),
               mkWorld (w_state w) (w_trace w ++ EvConnect hs 22 :: chdir_events hs ss
                                              ++ [EvPrint "ERROR: PORT must be a number"])%list))).
Proof.
  intros Hm Hn Hs Hsh Hsu Hsp Hd Hdh Hdu Hdp.
  assert (Hsh' : sec_has ss "HOST" = true) by (unfold sec_has; now rewrite Hsh).
  assert (Hsu' : sec_has ss "USER" = true) by (unfold sec_has; now rewrite Hsu).
  assert (Hsp' : sec_has ss "PASS" = true) by (unfold sec_has; now rewrite Hsp).
  assert (Hdh' : sec_has sd "HOST" = true) by (unfold sec_has; now rewrite Hdh).
  destruct (SftpSync_init_source env c dry w ms nm ss Hm Hn Hs) as [k [Fk E]].
  split; [|split].
  - intro Hport. rewrite E.
    destruct (bind_trace_prefix (get_sftp_connection env ss) k w Fk) as [d Hd1]. rewrite Hd1.
    destruct (get_sftp_connection_connects_first env ss w hs Hsh Hsu' Hsp' Hport) as [d' Hd2].
    rewrite Hd2. exists (d' ++ d)%list. now rewrite <- app_assoc.
  - intros p Hport Hint. rewrite E.
    now rewrite (bind_exc _ _ _ _ _ (get_sftp_connection_bad_port env ss w p Hsh' Hsu' Hsp' Hport Hint)).
  - intros Hsport Hc Hch.
    destruct (SftpSync_init_dest env c dry w ms nm ss sd hs us ps Hm Hn Hs Hsh Hsu Hsp Hsport Hc Hch Hd)
      as [k2 [Fk2 E2]].
    rewrite E2. split.
    + intro Hport.
      destruct (bind_trace_prefix (get_sftp_connection env sd) k2
                  (mkWorld (w_state w) (w_trace w ++ EvConnect hs 22 :: chdir_events hs ss)%list) Fk2)
        as [d Hd1].
      rewrite Hd1.
      destruct (get_sftp_connection_connects_first env sd
                  (mkWorld (w_state w) (w_trace w ++ EvConnect hs 22 :: chdir_events hs ss)%list)
                  hd Hdh Hdu Hdp Hport) as [d' Hd2].
      rewrite Hd2. exists (d' ++ d)%list. simpl. now rewrite <- !app_assoc.
    + intros p Hport Hint.
      rewrite (bind_exc _ _ _ _ _ (get_sftp_connection_bad_port env sd _ p Hdh' Hdu Hdp Hport Hint)).
      simpl. now rewrite <- !app_assoc.
Qed.



(** C6 (amended): with a truthy [slack] URL, an exception raised by
    [requests.post] is not caught.  In direct mode it ends [transfer]
    right after the first file of the diff is put (out of
    [transfer_file]); in zip mode right after the zip archive is put (out
    of [transfer_zip]).  [store_state] is not reached and the state file
    is unchanged, so what was just put is not marked transferred. *)
Theorem transfer_notification_failure_ends_run env s w l ms url adir f rest :
  load_file w = Some l -> dry_run s = false ->
  assoc "main" (config s) = Some ms -> sec_get ms "slack" = Some url -> truthy url = true ->
  sec_get ms "archive_dir" = Some adir ->
  transfer_diff (map fst (record_details (env_listing env) (file_details s))) l = f :: rest ->
  (forall g, In g (f :: rest) -> env_get_ok env g = true) ->
  (forall t, env_post_ok env t = false) ->
  (zip s = false -> env_put_ok env f = true ->
     transfer env s w
     = (Exc (PostError url),
        mkWorld (w_state w)
          (w_trace w ++ [EvPrint ("Found " ++ str_of_nat (length (f :: rest)) ++ " files to transfer.");
                         EvGet f (os_path_join adir f); EvPut (os_path_join adir f) f])%list))
  /\ (forall nm, zip s = true -> sec_get ms "name" = Some nm ->
     env_zip_ok env (os_path_join adir (nm ++ "-" ++ env_today env ++ ".zip"))
       (map (os_path_join adir) (f :: rest)) = true ->
     env_put_ok env (nm ++ "-" ++ env_today env ++ ".zip") = true ->
     transfer env s w
     = (Exc (PostError url),
        mkWorld (w_state w)
          (w_trace w
           ++ EvPrint ("Found " ++ str_of_nat (length (f :: rest)) ++ " files to transfer.")
           :: map (fun g => EvGet g (os_path_join adir g)) (f :: rest)
           ++ [EvZipWrite (os_path_join adir (nm ++ "-" ++ env_today env ++ ".zip"))
                          (map os_path_basename (map (os_path_join adir) (f :: rest)));
               EvPut (os_path_join adir (nm ++ "-" ++ env_today env ++ ".zip"))
                     (nm ++ "-" ++ env_today env ++ ".zip")])%list)).
Proof.
  intros Hl Hd Hm Hs Ht Ha Hdiff Hg Hpo.
  assert (Hk : forall g, In g (f :: rest) ->
                 exists sz, assoc g (record_details (env_listing env) (file_details s)) = Some sz).
  { intros g Hin. apply assoc_In_keys. apply (transfer_diff_In _ l). now rewrite Hdiff. }
  rewrite (transfer_after_print env s w l Hl), Hdiff.
  split.
  - intros Hz Hp.
    match goal with
    | |- bind (transfer_loop env ?s1 (f :: rest) [] l) ?k ?w1 = _ =>
        pose proof (transfer_loop_direct_cons env s1 f rest [] l w1 Hd Hz) as E;
        rewrite (transfer_file_eq env s1 f w1 ms adir Hm Ha (Hg f (or_introl eq_refl)) Hp) in E;
        match type of E with
        | context [notify env s1 f None ?w2] =>
            rewrite (notify_post_fails env s1 f None w2 ms url Hm Hs Ht Hpo
                       (fun _ => Hk f (or_introl eq_refl))) in E
        end;
        rewrite (bind_exc _ _ _ _ _ E)
    end.
    simpl. now rewrite <- !app_assoc.
  - intros nm Hz Hn Hzip Hput.
    match goal with
    | |- bind (transfer_loop env ?s1 (f :: rest) [] l) ?k ?w1 = _ =>
        rewrite (bind_ok _ k w1 _ _ (transfer_loop_zip_eq env s1 (f :: rest) [] l w1 ms adir
                                       Hd Hz Hm Ha Hg))
    end.
    cbv beta iota.
    match goal with
    | |- bind (transfer_zip_block env ?s1 ?fs ?lf ?tr) ?k ?w1 = _ =>
        destruct (transfer_zip_eq env s1 lf fs w1 ms nm adir Hm Hn Ha Hzip Hput Hk)
          as [m [Hm' Ez]];
        pose proof (transfer_zip_block_cons env s1 f rest lf tr w1 Hz) as Eb;
        rewrite Ez in Eb;
        match type of Eb with
        | context [notify env s1 ?zf (Some m) ?w2] =>
            rewrite (notify_post_fails env s1 zf (Some m) w2 ms url Hm Hs Ht Hpo
                       ltac:(cbn [truthy_opt]; rewrite Hm'; discriminate)) in Eb
        end;
        rewrite (bind_exc _ _ _ _ _ Eb)
    end.
    simpl. now rewrite <- !app_assoc.
Qed.

(* ------------------------------------------------------------------ *)
(** ** Witnesses *)

Lemma SftpSync_init_validates_ports_witness :
  SftpSync_init (env_ex listing_abc [] false None)
    [("source", sec_src); ("dest", sec_dst ++ [("port", "abc")]); ("main", main_sec_ex false None)]%list
    false world0
  = (Exc (SystemExit 1),
     mkWorld None [EvConnect "src.example" 22; EvPrint "ERROR: PORT must be a number"]).
Proof.
  destruct (SftpSync_init_validates_ports (env_ex listing_abc [] false None)
              [("source", sec_src); ("dest", sec_dst ++ [("port", "abc")]); ("main", main_sec_ex false None)]%list
              false world0 (main_sec_ex false None) "myrun" sec_src (sec_dst ++ [("port", "abc")])%list
              "src.example" "dst.example" "u" "p"
              eq_refl eq_refl eq_refl eq_refl eq_refl eq_refl eq_refl eq_refl eq_refl eq_refl)
    as [_ [_ H]].
  destruct (H ltac:(intros p Hp; vm_compute in Hp; discriminate) eq_refl eq_refl) as [_ H2].
  rewrite (H2 "abc" eq_refl ltac:(vm_compute; reflexivity)).
  vm_compute. reflexivity.
Defined.



Lemma transfer_notification_failure_ends_run_witness :
  transfer (env_ex listing_abc [] true None) (sync_ex false false (Some hook)) world0
  = (Exc (PostError hook),
     mkWorld None [EvPrint "Found 3 files to transfer."; EvGet "a.csv" "/srv/arch/a.csv";
                   EvPut "/srv/arch/a.csv" "a.csv"]).
Proof.
  rewrite (proj1 (transfer_notification_failure_ends_run (env_ex listing_abc [] true None)
                    (sync_ex false false (Some hook)) world0 [] (main_sec_ex false (Some hook)) hook
                    "/srv/arch" "a.csv" ["b.csv"; "c.csv"] eq_refl eq_refl eq_refl eq_refl eq_refl
                    eq_refl ltac:(vm_compute; reflexivity) ltac:(intros g _; reflexivity)
                    ltac:(intros t; reflexivity))
             eq_refl eq_refl).
  vm_compute. reflexivity.
Defined.
